(** * Garmin Connect synchronisation: a model of [scripts/garmin_sync.py]

    The script logs in to Garmin Connect, lists the remote activities,
    subtracts the identifiers already present in the local archive folder,
    downloads the remaining ones under a semaphore and rebuilds the index.

    Python coroutines are embedded as programs of a free monad over the
    calls the script makes to the outside (HTTP clients, the file system,
    the shared [is_login] attribute of the client object).  A sequential
    interpreter runs a program against an environment; a small-step
    scheduler interleaves the programs passed to [asyncio.gather]. *)

From Stdlib Require Import ZArith Lia Ascii String.
From stdpp Require Import gmap strings list pretty.

(** ** Exceptions

    The constructors below are the subclasses of [Exception] that play a role
    in the script.  [LibraryError] stands for whatever a library call raises
    (transport errors of the HTTP clients, [OSError], [BadZipFile], ...).
    Process-level interrupts, which are not subclasses of [Exception], are
    outside the model. *)

Inductive exn : Type :=
| GarminConnectHttpError
| GarminConnectConnectionError
| GarminConnectTooManyRequestsError
| GarminConnectAuthenticationError
| HTTPStatusError
| JSONDecodeError
| KeyError
| IndexError
| TypeError
| AttributeError
| ValueError
| RecursionError
| PlainException (msg : string)
| LibraryError (name : string).

Inductive result (A : Type) : Type :=
| Ok (a : A)
| Err (e : exn).
Arguments Ok {A} a.
Arguments Err {A} e.

Definition is_ok {A} (r : result A) : bool :=
  match r with Ok _ => true | Err _ => false end.

(** ** Python values decoded from JSON

    Numbers are integers; floating-point numbers are outside the model. *)

#[warnings="-register-all"]
Inductive pyval : Type :=
| PyNone
| PyBool (b : bool)
| PyInt (z : Z)
| PyStr (s : string)
| PyList (l : list pyval)
| PyDict (d : gmap string pyval).

Fixpoint chars (s : string) : list string :=
  match s with
  | EmptyString => []
  | String c s' => String c EmptyString :: chars s'
  end.

(** [len(v)] *)
Definition py_len (v : pyval) : result Z :=
  match v with
  | PyStr s => Ok (Z.of_nat (String.length s))
  | PyList l => Ok (Z.of_nat (length l))
  | PyDict d => Ok (Z.of_nat (size d))
  | PyNone | PyBool _ | PyInt _ => Err TypeError
  end.

(** The items visited by [for x in v] (a dict iterates over its keys). *)
Definition py_iter (v : pyval) : result (list pyval) :=
  match v with
  | PyStr s => Ok (PyStr <$> chars s)
  | PyList l => Ok l
  | PyDict d => Ok (PyStr <$> (map_to_list d).*1)
  | PyNone | PyBool _ | PyInt _ => Err TypeError
  end.

(** [v[key]] for a string key. *)
Definition py_getitem (v : pyval) (key : string) : result pyval :=
  match v with
  | PyDict d => match d !! key with Some x => Ok x | None => Err KeyError end
  | _ => Err TypeError
  end.

(** [v[0]] *)
Definition py_getitem0 (v : pyval) : result pyval :=
  match v with
  | PyList (x :: _) => Ok x
  | PyList [] => Err IndexError
  | PyStr (String c _) => Ok (PyStr (String c EmptyString))
  | PyStr EmptyString => Err IndexError
  | PyDict _ => Err KeyError
  | PyNone | PyBool _ | PyInt _ => Err TypeError
  end.

(** [a.get(key, default)]: only dicts have the method. *)
Definition py_get (a : pyval) (key : string) (default : pyval) : result pyval :=
  match a with
  | PyDict d => Ok (match d !! key with Some x => x | None => default end)
  | _ => Err AttributeError
  end.

(** Truth value of [v] in a condition. *)
Definition py_truthy (v : pyval) : bool :=
  match v with
  | PyNone => false
  | PyBool b => b
  | PyInt z => negb (z =? 0)%Z
  | PyStr s => negb (String.eqb s EmptyString)
  | PyList l => negb (bool_decide (l = []))
  | PyDict d => negb (bool_decide (size d = 0))
  end.

Section Str.
(** [str(v)] of a list or a dict is its [repr]; the rendering of containers
    is left to the parameter [container_repr]. *)
Variable container_repr : pyval -> string.

Definition py_str (v : pyval) : string :=
  match v with
  | PyNone => "None"
  | PyBool true => "True"
  | PyBool false => "False"
  | PyInt z => pretty z
  | PyStr s => s
  | PyList _ | PyDict _ => container_repr v
  end.
End Str.

(** ** String helpers *)

(** [i.split(".")[0]]: the part of [i] before its first dot, all of [i] when
    it has none. *)
Fixpoint split_dot_0 (i : string) : string :=
  match i with
  | EmptyString => EmptyString
  | String c i' => if Ascii.eqb c "."%char then EmptyString else String c (split_dot_0 i')
  end.

(** [i.startswith(".")] *)
Definition startswith_dot (i : string) : bool :=
  match i with
  | String c _ => Ascii.eqb c "."%char
  | EmptyString => false
  end.

(** [t in s] on strings: [t] occurs in [s] as a substring. *)
Fixpoint str_contains (t s : string) : bool :=
  String.prefix t s ||
  match s with
  | EmptyString => false
  | String _ s' => str_contains t s'
  end.

Definition has_char (c : ascii) (s : string) : bool :=
  existsb (Ascii.eqb c) (list_ascii_of_string s).

Definition dquote : ascii := "034"%char.
Definition backslash : ascii := "092"%char.

Fixpoint string_filter (f : ascii -> bool) (s : string) : string :=
  match s with
  | EmptyString => EmptyString
  | String c s' => if f c then String c (string_filter f s') else string_filter f s'
  end.

Fixpoint string_drop (n : nat) (s : string) : string :=
  match n, s with
  | S n', String _ s' => string_drop n' s'
  | _, _ => s
  end.

Definition upper_char (c : ascii) : ascii :=
  let n := nat_of_ascii c in
  if (97 <=? n)%nat && (n <=? 122)%nat then ascii_of_nat (n - 32) else c.

(** [s.upper()] on ASCII text. *)
Fixpoint str_upper (s : string) : string :=
  match s with
  | EmptyString => EmptyString
  | String c s' => String (upper_char c) (str_upper s')
  end.

(** *** The service-ticket pattern

    The pattern given to [re.search] is: a double quote, an opening
    parenthesis of group 1, [https:], one or more characters other than a
    double quote (as few as possible), [ticket=], one or more characters other
    than a double quote, the end of group 1, a double quote.  A match is the
    leftmost position holding a double quote, then [https:], then a run of
    characters other than a double quote that is closed by a double quote and
    that contains [ticket=] after at least one character and before at least
    one character.  Group 1 is [https:] followed by the whole run. *)

(** The longest prefix without a double quote, and what follows it. *)
Fixpoint span_not_quote (s : string) : string * string :=
  match s with
  | EmptyString => (EmptyString, EmptyString)
  | String c s' =>
      if Ascii.eqb c dquote then (EmptyString, s)
      else let '(r, rest) := span_not_quote s' in (String c r, rest)
  end.

(** [ticket=] followed by at least one character occurs somewhere in [r]. *)
Fixpoint ticket_inside (r : string) : bool :=
  (String.prefix "ticket=" r && negb (String.eqb (string_drop 7 r) EmptyString)) ||
  match r with
  | EmptyString => false
  | String _ r' => ticket_inside r'
  end.

Fixpoint re_search_ticket (text : string) : option string :=
  match text with
  | EmptyString => None
  | String c text' =>
      if Ascii.eqb c dquote && String.prefix "https:" text' then
        let '(r, rest) := span_not_quote (string_drop 6 text') in
        if negb (String.eqb rest EmptyString) &&
           match r with EmptyString => false | String _ r' => ticket_inside r' end
        then Some ("https:" +:+ r)
        else re_search_ticket text'
      else re_search_ticket text'
  end.

(** [re.sub] of every backslash by the empty string. *)
Definition remove_backslashes (s : string) : string :=
  string_filter (fun c => negb (Ascii.eqb c backslash)) s.

(** ** HTTP responses

    A response object is what the script observes of it: its attributes and
    the outcome of the methods it calls on it. *)

Record response : Type := {
  status_code : Z;
  text : string;
  raise_for_status : option exn;   (* [None]: returns normally *)
  json : result pyval;             (* [Err]: the body does not decode *)
  read : string
}.

(** ** Calls to the outside

    [CfGet], [CfPost]: the cloudscraper session [self.cf_req] (blocking);
    [ReqGet], [ReqPost], [ReqPut], [ReqAclose]: the httpx client [self.req];
    [GetIsLogin], [SetIsLogin]: the attribute [is_login] of the client object,
    which every coroutine holding the client shares;
    [ListDir]: [os.listdir(GPX_FOLDER)];
    [ExtractAll data]: [zipfile.ZipFile(BytesIO(data)).extractall(GPX_FOLDER)];
    [FileOpenWb], [FileWrite], [FileClose]: the [aiofiles] handle on
    [os.path.join(GPX_FOLDER, name)];
    [MakeActivitiesFileOnly]: [make_activities_file_only(SQL_FILE, GPX_FOLDER,
    JSON_FILE)] of [utils].  Printing and logging are left out. *)

Inductive call : Type -> Type :=
| CfGet (url : string) (params : list (string * string)) : call response
| CfPost (url : string) (params data : list (string * string)) : call response
| ReqGet (url : string) : call response
| ReqPost (url : string) (file : string) : call response
| ReqPut (url : string) (data : string) : call response
| ReqAclose : call unit
| GetIsLogin : call bool
| SetIsLogin (b : bool) : call unit
| ListDir : call (list string)
| ExtractAll (data : string) : call unit
| FileOpenWb (name : string) : call unit
| FileWrite (name : string) (data : string) : call unit
| FileClose (name : string) : call unit
| MakeActivitiesFileOnly : call unit.

(** ** Programs *)

Inductive prog (A : Type) : Type :=
| Ret (a : A)
| Raise (e : exn)
| Do {X : Type} (c : call X) (k : result X -> prog A).
Arguments Ret {A} a.
Arguments Raise {A} e.
Arguments Do {A X} c k.

Fixpoint bind {A B : Type} (p : prog A) (f : A -> prog B) : prog B :=
  match p with
  | Ret a => f a
  | Raise e => Raise e
  | Do c k => Do c (fun r => bind (k r) f)
  end.

#[global] Instance prog_ret : MRet prog := @Ret.
#[global] Instance prog_bind : MBind prog := fun A B f p => bind p f.

(** [try: p except Exception as err: h err] *)
Fixpoint try_except {A : Type} (p : prog A) (h : exn -> prog A) : prog A :=
  match p with
  | Ret a => Ret a
  | Raise e => h e
  | Do c k => Do c (fun r => try_except (k r) h)
  end.

(** [q] runs when [p] is left, normally or by an exception. *)
Fixpoint finally {A : Type} (p : prog A) (q : prog unit) : prog A :=
  match p with
  | Ret a => bind q (fun _ => Ret a)
  | Raise e => bind q (fun _ => Raise e)
  | Do c k => Do c (fun r => finally (k r) q)
  end.

Definition lift {A : Type} (r : result A) : prog A :=
  match r with
  | Ok a => Ret a
  | Err e => Raise e
  end.

Definition perform {X : Type} (c : call X) : prog X := Do c lift.

Definition result_bind {A B : Type} (r : result A) (f : A -> result B) : result B :=
  match r with
  | Ok a => f a
  | Err e => Err e
  end.

(** A list comprehension [[x for x in l if cond x]] whose condition may raise. *)
Fixpoint filter_raising {A : Type} (cond : A -> result bool) (l : list A) : result (list A) :=
  match l with
  | [] => Ok []
  | x :: l' =>
      result_bind (cond x) (fun b =>
      result_bind (filter_raising cond l') (fun rest =>
      Ok (if b then x :: rest else rest)))
  end.

(** [list(map(f, l))] for an [f] that may raise. *)
Fixpoint map_raising {A B : Type} (f : A -> result B) (l : list A) : result (list B) :=
  match l with
  | [] => Ok []
  | x :: l' =>
      result_bind (f x) (fun y =>
      result_bind (map_raising f l') (fun rest => Ok (y :: rest)))
  end.

(** ** The outside world

    The trace records the calls made so far, most recent first.  The oracle of
    an environment answers a call from the trace before it, so it can stand
    for any behaviour of the remote service and of the disk.  The archive
    folder is flat: [w_archive] lists its entries in the order [os.listdir]
    reports them; opening a plain file name for writing creates the entry, any
    other path leaves the listing as it is. *)

Inductive event : Type :=
| Called {X : Type} (c : call X).

Record world : Type := {
  w_is_login : bool;
  w_archive : list string;
  w_trace : list event
}.

Record env : Type := {
  oracle : list event -> forall X : Type, call X -> result X;
  zip_names : string -> list string   (* entries [extractall] creates *)
}.

Definition plain_name (name : string) : bool :=
  negb (String.eqb name EmptyString) && negb (has_char "/"%char name)
  && negb (String.eqb name ".") && negb (String.eqb name "..").

Definition add_entry (name : string) (archive : list string) : list string :=
  if plain_name name && negb (bool_decide (name ∈ archive))
  then archive ++ [name] else archive.

Definition add_entries (names : list string) (archive : list string) : list string :=
  foldl (fun acc name => add_entry name acc) archive names.

Definition logged {X : Type} (c : call X) (w : world) : world :=
  {| w_is_login := w_is_login w; w_archive := w_archive w;
     w_trace := Called c :: w_trace w |}.

Definition with_login (b : bool) (w : world) : world :=
  {| w_is_login := b; w_archive := w_archive w; w_trace := w_trace w |}.

Definition with_archive (a : list string) (w : world) : world :=
  {| w_is_login := w_is_login w; w_archive := a; w_trace := w_trace w |}.

(** The answer of the world to one call, and the world after it. *)
Definition answer (E : env) (w : world) {X : Type} (c : call X) : result X * world :=
  let w' := logged c w in
  match c in call T return result T -> result T * world with
  | GetIsLogin => fun _ => (Ok (w_is_login w), w')
  | SetIsLogin b => fun _ => (Ok tt, with_login b w')
  | ListDir => fun r =>
      match r with
      | Ok _ => (Ok (w_archive w), w')
      | Err e => (Err e, w')
      end
  | FileOpenWb name => fun r =>
      match r with
      | Ok _ => (Ok tt, with_archive (add_entry name (w_archive w)) w')
      | Err e => (Err e, w')
      end
  | ExtractAll data => fun r =>
      match r with
      | Ok _ => (Ok tt, with_archive (add_entries (zip_names E data) (w_archive w)) w')
      | Err e => (Err e, w')
      end
  | _ => fun r => (r, w')
  end (oracle E (w_trace w) _ c).

(** Sequential execution of a coroutine that nothing interleaves with. *)
Fixpoint run {A : Type} (E : env) (p : prog A) (w : world) : result A * world :=
  match p with
  | Ret a => (Ok a, w)
  | Raise e => (Err e, w)
  | Do c k => let '(r, w') := answer E w c in run E (k r) w'
  end.

(** ** Configuration *)

Record url_dict : Type := {
  BASE_URL : string;
  SSO_URL_ORIGIN : string;
  SSO_URL : string;
  MODERN_URL : string;
  SIGNIN_URL : string;
  CSS_URL : string;
  UPLOAD_URL : string;
  ACTIVITY_URL : string
}.

Definition GARMIN_COM_URL_DICT : url_dict := {|
  BASE_URL := "https://connect.garmin.com";
  SSO_URL_ORIGIN := "https://sso.garmin.com";
  SSO_URL := "https://sso.garmin.com/sso";
  MODERN_URL := "https://connect.garmin.com";
  SIGNIN_URL := "https://sso.garmin.com/sso/signin";
  CSS_URL := "https://static.garmincdn.com/com.garmin.connect/ui/css/gauth-custom-v1.2-min.css";
  UPLOAD_URL := "https://connect.garmin.com/modern/proxy/upload-service/upload/.gpx";
  ACTIVITY_URL := "https://connect.garmin.com/proxy/activity-service/activity/{activity_id}"
|}.

Definition GARMIN_CN_URL_DICT : url_dict := {|
  BASE_URL := "https://connect.garmin.cn";
  SSO_URL_ORIGIN := "https://sso.garmin.com";
  SSO_URL := "https://sso.garmin.cn/sso";
  MODERN_URL := "https://connect.garmin.cn";
  SIGNIN_URL := "https://sso.garmin.cn/sso/signin";
  CSS_URL := "https://static.garmincdn.cn/cn.garmin.connect/ui/css/gauth-custom-v1.2-min.css";
  UPLOAD_URL := "https://connect.garmin.cn/modern/proxy/upload-service/upload/.gpx";
  ACTIVITY_URL := "https://connect.garmin.cn/proxy/activity-service/activity/{activity_id}"
|}.

(** [template.format(activity_id=v)] for a template that holds the field
    once. *)
Fixpoint format_activity_id (template v : string) : string :=
  match template with
  | EmptyString => EmptyString
  | String c template' =>
      if String.prefix "{activity_id}" template
      then v +:+ string_drop 12 template'
      else String c (format_activity_id template' v)
  end.

(** [activity_types] is a list of type keys when it comes from the command
    line and a plain string when it is the fallback of the entry point. *)
Inductive activity_types_arg : Type :=
| TypesList (l : list string)
| TypesStr (s : string).

Record Garmin : Type := {
  email : string;
  password : string;
  URL_DICT : url_dict;
  modern_url : string;
  is_only_running : bool;
  file_type : string;
  sync_type : string;
  activity_types : activity_types_arg;
  upload_url : string;
  activity_url : string
}.

(** [Garmin.__init__]; the attribute [is_login] starts as [False] in the
    world. *)
Definition Garmin_init (email password : string) (auth_domain : option string)
    (is_only_running : bool) (file_type sync_type : string)
    (activity_types : activity_types_arg) : Garmin :=
  let URL_DICT :=
    if match auth_domain with
       | Some d => negb (String.eqb d EmptyString) && String.eqb (str_upper d) "CN"
       | None => false
       end
    then GARMIN_CN_URL_DICT else GARMIN_COM_URL_DICT in
  {| email := email; password := password; URL_DICT := URL_DICT;
     modern_url := MODERN_URL URL_DICT;
     is_only_running := is_only_running; file_type := file_type;
     sync_type := sync_type; activity_types := activity_types;
     upload_url := UPLOAD_URL URL_DICT; activity_url := ACTIVITY_URL URL_DICT |}.

Definition initial_world (archive : list string) : world :=
  {| w_is_login := false; w_archive := archive; w_trace := [] |}.

(** ** The client *)

Definition login_params (self : Garmin) : list (string * string) :=
  [ ("webhost", BASE_URL (URL_DICT self));
    ("service", modern_url self);
    ("source", SIGNIN_URL (URL_DICT self));
    ("redirectAfterAccountLoginUrl", modern_url self);
    ("redirectAfterAccountCreationUrl", modern_url self);
    ("gauthHost", SSO_URL (URL_DICT self));
    ("locale", "en_US");
    ("id", "gauth-widget");
    ("cssUrl", CSS_URL (URL_DICT self));
    ("clientId", "GarminConnect");
    ("rememberMeShown", "true");
    ("rememberMeChecked", "false");
    ("createAccountShown", "true");
    ("openCreateAccount", "false");
    ("usernameShown", "false");
    ("displayNameShown", "false");
    ("consumeServiceTicket", "false");
    ("initialFocus", "true");
    ("embedWidget", "false");
    ("generateExtraServiceTicket", "false") ].

Definition login_data (self : Garmin) : list (string * string) :=
  [ ("username", email self);
    ("password", password self);
    ("embed", "true");
    ("lt", "e1s1");
    ("_eventId", "submit");
    ("displayNameRequired", "false") ].

(** [Garmin.login].  Handing the cookies of the cloudscraper session to the
    httpx client has no counterpart here: the cookies are part of the history
    the oracle answers from. *)
Definition login (self : Garmin) : prog unit :=
  let params := login_params self in
  let data := login_data self in
  response ← try_except
    (perform (CfGet (SIGNIN_URL (URL_DICT self)) params) ;;
     perform (CfPost (SIGNIN_URL (URL_DICT self)) params data))
    (fun err => Raise GarminConnectConnectionError);
  match re_search_ticket (text response) with
  | None => Raise GarminConnectAuthenticationError
  | Some group1 =>
      let response_url := remove_backslashes group1 in
      try_except
        (response ← perform (CfGet response_url []);
         if (status_code response =? 429)%Z
         then Raise GarminConnectTooManyRequestsError
         else match raise_for_status response with
              | Some e => Raise e
              | None => perform (SetIsLogin true)
              end)
        (fun err => Raise GarminConnectConnectionError)
  end.

(** The body of the [try] in [Garmin.fetch_data]. *)
Definition fetch_attempt (url : string) : prog pyval :=
  response ← perform (ReqGet url);
  if (status_code response =? 429)%Z
  then Raise GarminConnectTooManyRequestsError
  else match raise_for_status response with
       | Some e => Raise e
       | None => lift (json response)
       end.

(** [Garmin.fetch_data], with the recursive call as the parameter
    [fetch_data_rec]. *)
Definition fetch_data_body (fetch_data_rec : string -> bool -> prog pyval)
    (self : Garmin) (url : string) (retrying : bool) : prog pyval :=
  try_except (fetch_attempt url)
    (fun err =>
       if retrying
       then Raise GarminConnectConnectionError
       else login self ;; fetch_data_rec url true).

(** The recursion of [fetch_data] is two calls deep: the inner call has
    [retrying=True] and does not recurse (see [fetch_data_unfold]). *)
Definition fetch_data (self : Garmin) (url : string) (retrying : bool) : prog pyval :=
  fetch_data_body
    (fun url' retrying' =>
       fetch_data_body (fun _ _ => Raise RecursionError) self url' retrying')
    self url retrying.

(** [len(self.activity_types) == 0 or self.activity_types[0] == ''] *)
Definition no_type_filter (types : activity_types_arg) : bool :=
  match types with
  | TypesList [] => true
  | TypesList (t :: _) => String.eqb t EmptyString
  | TypesStr EmptyString => true
  | TypesStr (String _ _) => false
  end.

(** [v in self.activity_types]: membership in a list, substring test on a
    string. *)
Definition type_in (v : pyval) (types : activity_types_arg) : result bool :=
  match types with
  | TypesList l =>
      Ok match v with
         | PyStr s => bool_decide (s ∈ l)
         | _ => false
         end
  | TypesStr s =>
      match v with
      | PyStr t => Ok (str_contains t s)
      | _ => Err TypeError
      end
  end.

(** [x["activityType"]["typeKey"] in self.activity_types] *)
Definition type_matches (types : activity_types_arg) (x : pyval) : result bool :=
  result_bind (py_getitem x "activityType") (fun activity_type =>
  result_bind (py_getitem activity_type "typeKey") (fun type_key =>
  type_in type_key types)).

Definition activities_url (self : Garmin) (start limit : Z) : string :=
  let url := modern_url self
             +:+ "/proxy/activitylist-service/activities/search/activities?start="
             +:+ pretty start +:+ "&limit=" +:+ pretty limit in
  if is_only_running self then url +:+ "&activityType=running" else url.

(** The end of [Garmin.get_activities]: the page as it is without a type
    filter, else the list of the items whose type key is among the types. *)
Definition select_activity_types (types : activity_types_arg) (activities : pyval)
    : result pyval :=
  if no_type_filter types
  then Ok activities
  else
    result_bind (py_iter activities) (fun items =>
    result_bind (filter_raising (type_matches types) items) (fun kept =>
    Ok (PyList kept))).

(** [Garmin.get_activities] *)
Definition get_activities (self : Garmin) (start limit : Z) : prog pyval :=
  is_login ← perform GetIsLogin;
  (if negb is_login then login self else Ret tt) ;;
  let url := activities_url self start limit in
  activities ← fetch_data self url false;
  lift (select_activity_types (activity_types self) activities).

Definition download_url (self : Garmin) (activity_id : string) : string :=
  if String.eqb (file_type self) "fit"
  then modern_url self +:+ "/modern/proxy/download-service/files/activity/" +:+ activity_id
  else modern_url self +:+ "/proxy/download-service/export/" +:+ file_type self
       +:+ "/activity/" +:+ activity_id.

(** [Garmin.download_activity] *)
Definition download_activity (self : Garmin) (activity_id : string) : prog string :=
  let url := download_url self activity_id in
  response ← perform (ReqGet url);
  match raise_for_status response with
  | Some e => Raise e
  | None => Ret (read response)
  end.

(** [save_garmin_activity]: the bare [except] swallows every exception. *)
Definition save_garmin_activity (client : Garmin) (activity_id : string) : prog unit :=
  try_except
    (file_data ← download_activity client activity_id;
     if String.eqb (file_type client) "fit"
     then perform (ExtractAll file_data)
     else
       let name := activity_id +:+ "." +:+ file_type client in
       perform (FileOpenWb name) ;;
       finally (perform (FileWrite name file_data)) (perform (FileClose name)))
    (fun _ => Ret tt).

Section Script.

Variable container_repr : pyval -> string.

(** [list(map(lambda a: str(a.get("activityId", '')), activities))] *)
Definition activity_ids (activities : pyval) : result (list string) :=
  result_bind (py_iter activities)
    (map_raising (fun a =>
       result_bind (py_get a "activityId" (PyStr EmptyString))
         (fun v => Ok (py_str container_repr v)))).

(** [Garmin.upload_activities]: the loop over [files]. *)
Fixpoint upload_loop (self : Garmin) (files : list (string * string)) : prog unit :=
  match files with
  | [] => Ret tt
  | (file, garmin_type) :: files' =>
      Do (ReqPost (upload_url self) file) (fun posted =>
        match posted with
        | Err e => upload_loop self files'
        | Ok res =>
            resp ← try_except
              (lift (result_bind (json res)
                       (fun body => py_getitem body "detailedImportResult")))
              (fun e => Raise (PlainException "failed to upload"));
            successes ← lift (py_getitem resp "successes");
            (if py_truthy successes
             then
               first ← lift (py_getitem0 successes);
               activity_id ← lift (py_getitem first "internalId");
               r ← perform (ReqPut
                      (format_activity_id (activity_url self)
                         (py_str container_repr activity_id))
                      garmin_type);
               match raise_for_status r with
               | Some e => Raise e
               | None => Ret tt
               end
             else Ret tt) ;;
            upload_loop self files'
        end)
  end.

Definition upload_activities (self : Garmin) (files : list (string * string)) : prog unit :=
  is_login ← perform GetIsLogin;
  (if negb is_login then login self else Ret tt) ;;
  upload_loop self files ;;
  perform ReqAclose.

(** [get_activity_id_list]: [fuel] is the number of nested calls the
    interpreter allows before it raises [RecursionError]. *)
Fixpoint get_activity_id_list (fuel : nat) (client : Garmin) (start : Z)
    : prog (list string) :=
  if String.eqb (sync_type client) "all" then
    activities ← get_activities client start 100;
    n ← lift (py_len activities);
    if (n >? 0)%Z then
      ids ← lift (activity_ids activities);
      match fuel with
      | O => Raise RecursionError
      | S fuel' =>
          rest ← get_activity_id_list fuel' client (start + 100)%Z;
          Ret (ids ++ rest)
      end
    else Ret []
  else
    activities ← get_activities client start 1;
    n ← lift (py_len activities);
    if (n >? 0)%Z then
      ids ← lift (activity_ids activities);
      Ret ids
    else Ret [].

End Script.

(** ** [gather_with_concurrency]

    [asyncio.gather] drives one [sem_task] per element of [tasks].  A
    [sem_task] waits for the semaphore, then holds it while it awaits its
    coroutine, and gives it back when the coroutine returns or raises.  The
    event loop is free to pick any task that can move; the steps below are
    the moves, one call to the outside at a time. *)

Inductive task_state (A : Type) : Type :=
| Waiting (p : prog A)      (* not yet inside [async with semaphore] *)
| Running (p : prog A)      (* inside it, awaiting [task] *)
| Finished (r : result A).  (* has left it *)
Arguments Waiting {A} p.
Arguments Running {A} p.
Arguments Finished {A} r.

Record gather_state (A : Type) : Type := {
  g_value : Z;                      (* the counter of the semaphore *)
  g_tasks : list (task_state A);
  g_world : world
}.
Arguments g_value {A} g.
Arguments g_tasks {A} g.
Arguments g_world {A} g.

(** [asyncio.Semaphore(n)] raises [ValueError] for a negative [n]. *)
Definition gather_with_concurrency {A : Type} (n : Z) (tasks : list (prog A))
    (w : world) : result (gather_state A) :=
  if (n <? 0)%Z then Err ValueError
  else Ok {| g_value := n; g_tasks := Waiting <$> tasks; g_world := w |}.

Inductive gather_step {A : Type} (E : env) : gather_state A -> gather_state A -> Prop :=
| step_acquire (s : gather_state A) (i : nat) (p : prog A) :
    g_tasks s !! i = Some (Waiting p) ->
    (0 < g_value s)%Z ->
    gather_step E s
      {| g_value := g_value s - 1;
         g_tasks := <[i := Running p]> (g_tasks s);
         g_world := g_world s |}
| step_call (s : gather_state A) (i : nat) (X : Type) (c : call X)
    (k : result X -> prog A) (r : result X) (w' : world) :
    g_tasks s !! i = Some (Running (Do c k)) ->
    answer E (g_world s) c = (r, w') ->
    gather_step E s
      {| g_value := g_value s;
         g_tasks := <[i := Running (k r)]> (g_tasks s);
         g_world := w' |}
| step_return (s : gather_state A) (i : nat) (a : A) :
    g_tasks s !! i = Some (Running (Ret a)) ->
    gather_step E s
      {| g_value := g_value s + 1;
         g_tasks := <[i := Finished (Ok a)]> (g_tasks s);
         g_world := g_world s |}
| step_raise (s : gather_state A) (i : nat) (e : exn) :
    g_tasks s !! i = Some (Running (Raise e)) ->
    gather_step E s
      {| g_value := g_value s + 1;
         g_tasks := <[i := Finished (Err e)]> (g_tasks s);
         g_world := g_world s |}.

Definition is_running {A : Type} (t : task_state A) : bool :=
  match t with Running _ => true | _ => false end.

(** The number of tasks inside the semaphore. *)
Definition in_flight {A : Type} (s : gather_state A) : nat :=
  length (filter (fun t => is_running t = true) (g_tasks s)).

(** [gather] re-raises the exception of a task as soon as one has raised. *)
Definition gather_raises {A : Type} (s : gather_state A) (e : exn) : Prop :=
  Finished (Err e) ∈ g_tasks s.

(** [gather] returns [results] once every task has returned. *)
Definition gather_returns {A : Type} (s : gather_state A) (results : list A) : Prop :=
  g_tasks s = (fun a => Finished (Ok a)) <$> results.

(** ** The entry point: [download_new_activities]

    Argument parsing, the exit on missing credentials and the creation of the
    archive folder come before it and are not modelled; the client is the
    value of [Garmin_init]. *)

Section Main.

Variable container_repr : pyval -> string.

(** The identifiers behind the entries of the archive folder. *)
Definition downloaded_ids_of (listing : list string) : list string :=
  split_dot_0 <$> filter (fun i => negb (startswith_dot i) = true) listing.

(** [list(set(activity_ids) - set(downloaded_ids))] *)
Definition to_generate_garmin_ids_of (activity_ids downloaded_ids : list string)
    : list string :=
  elements (list_to_set activity_ids ∖ list_to_set downloaded_ids : gset string).

(** Up to the computation of [to_generate_garmin_ids]. *)
Definition new_garmin_ids (fuel : nat) (client : Garmin) : prog (list string) :=
  login client ;;
  listing ← perform ListDir;
  let downloaded_ids := downloaded_ids_of listing in
  activity_ids ← get_activity_id_list container_repr fuel client 0;
  Ret (to_generate_garmin_ids_of activity_ids downloaded_ids).

(** The batch handed to [gather_with_concurrency]. *)
Definition download_batch (client : Garmin) (to_generate_garmin_ids : list string)
    (w : world) : result (gather_state unit) :=
  gather_with_concurrency 10
    (save_garmin_activity client <$> to_generate_garmin_ids) w.

(** After the batch. *)
Definition rebuild_and_close : prog unit :=
  perform MakeActivitiesFileOnly ;;
  perform ReqAclose.

(** The runs of [download_new_activities] from a world, with their outcome
    and the world they leave. *)
Inductive download_new_activities (E : env) (fuel : nat) (client : Garmin)
    : world -> result unit -> world -> Prop :=
| listing_raises w e w1 :
    run E (new_garmin_ids fuel client) w = (Err e, w1) ->
    download_new_activities E fuel client w (Err e) w1
| semaphore_raises w ids w1 e :
    run E (new_garmin_ids fuel client) w = (Ok ids, w1) ->
    download_batch client ids w1 = Err e ->
    download_new_activities E fuel client w (Err e) w1
| batch_raises w ids w1 s0 s e :
    run E (new_garmin_ids fuel client) w = (Ok ids, w1) ->
    download_batch client ids w1 = Ok s0 ->
    rtc (gather_step E) s0 s ->
    gather_raises s e ->
    download_new_activities E fuel client w (Err e) (g_world s)
| batch_returns w ids w1 s0 s results r w2 :
    run E (new_garmin_ids fuel client) w = (Ok ids, w1) ->
    download_batch client ids w1 = Ok s0 ->
    rtc (gather_step E) s0 s ->
    gather_returns s results ->
    run E rebuild_and_close (g_world s) = (r, w2) ->
    download_new_activities E fuel client w r w2.

End Main.

(** ** [config.py]: the configuration file and the type tables *)

(** [_config]: what [yaml.safe_load] gives for [config.yaml], and the empty
    dict when opening or loading the file raises.  Keys of the mappings are
    strings. *)
Definition load_config (loaded : result pyval) : pyval :=
  match loaded with
  | Ok v => v
  | Err _ => PyDict ∅
  end.

(** [safeget]: follows [keys] from [dct]; a [KeyError] on the way gives
    [None], any other exception of the subscript propagates. *)
Fixpoint safeget (dct : pyval) (keys : list string) : result pyval :=
  match keys with
  | [] => Ok dct
  | key :: keys' =>
      match py_getitem dct key with
      | Ok v => safeget v keys'
      | Err KeyError => Ok PyNone
      | Err e => Err e
      end
  end.

(** [config], applied to the keys [keys]. *)
Definition config (_config : pyval) (keys : list string) : result pyval :=
  safeget _config keys.

Definition TYPE_DICT : gmap string string :=
  list_to_map
    [ ("running", "Run"); ("RUN", "Run"); ("Run", "Run");
      ("street_running", "Run"); ("trail_running", "TrailRun");
      ("cycling", "Ride"); ("CYCLING", "Ride"); ("road_biking", "Ride");
      ("Ride", "Ride"); ("VirtualRide", "VirtualRide");
      ("indoor_cycling", "IndoorRide"); ("indoor_cardio", "HIIT");
      ("hiit", "HIIT"); ("walking", "Walk"); ("Walk", "Walk");
      ("hiking", "Hike"); ("Hike", "Hike"); ("mountaineering", "Climb");
      ("Swim", "Swim"); ("lap_swimming", "Swim");
      ("open_water_swimming", "Swim"); ("rowing", "Rowing");
      ("boating", "Rowing"); ("RoadTrip", "RoadTrip"); ("flight", "Flight") ].

Definition MAPPING_TYPE : list string :=
  [ "Run"; "TrailRun"; "Ride"; "HIIT"; "Walk"; "Hike"; "Climb"; "Swim"; "Rowing" ].

(** The [choices] of the option [--activity-types] of [garmin_sync.py]. *)
Definition activity_types_choices : list string :=
  [ "lap_swimming"; "running"; "hiking"; "cycling"; "street_running"; "walking";
    "mountaineering"; "indoor_cardio"; "road_biking"; "trail_running"; "hiit";
    "boating"; "open_water_swimming" ].

(** * Vocabulary of the statements *)

(** ** File names *)

(** [stem] is the part of [entry] before its first dot. *)
Definition is_stem (entry stem : string) : Prop :=
  has_char "."%char stem = false /\
  (entry = stem \/ exists rest, entry = stem +:+ "." +:+ rest).

(** [entry] is hidden: its name starts with a dot. *)
Definition hidden (entry : string) : Prop := exists rest, entry = "." +:+ rest.

(** ** Traces *)

Definition is_ReqGet (ev : event) : bool :=
  match ev with
  | Called c => match c with ReqGet _ => true | _ => false end
  end.

(** The number of GET requests the httpx client has sent. *)
Definition req_get_count (w : world) : nat :=
  length (filter (fun ev => is_ReqGet ev = true) (w_trace w)).

(** The URLs of the GET requests the httpx client has sent, oldest first. *)
Definition req_get_urls (w : world) : list string :=
  reverse (omap (fun ev =>
                   match ev with
                   | Called c => match c with ReqGet url => Some url | _ => None end
                   end) (w_trace w)).

(** Every call of [p], whatever the answers, satisfies [P]. *)
Fixpoint all_calls {A : Type} (P : event -> Prop) (p : prog A) : Prop :=
  match p with
  | Ret _ | Raise _ => True
  | Do c k => P (Called c) /\ forall r, all_calls P (k r)
  end.

(** ** [Garmin.fetch_data] and [Garmin.login] *)

(** What the body of the [try] makes of the answer to its GET. *)
Definition attempt_outcome (answered : result response) : result pyval :=
  match answered with
  | Err e => Err e
  | Ok response =>
      if (status_code response =? 429)%Z then Err GarminConnectTooManyRequestsError
      else match raise_for_status response with
           | Some e => Err e
           | None => json response
           end
  end.

(** What the second [try] of [login] makes of the answer to the ticket
    exchange: every exception raised inside it, the one for status 429
    included, is replaced by [GarminConnectConnectionError]. *)
Definition exchange_outcome (answered : result response) : result unit :=
  match answered with
  | Err _ => Err GarminConnectConnectionError
  | Ok response =>
      if (status_code response =? 429)%Z then Err GarminConnectConnectionError
      else match raise_for_status response with
           | Some _ => Err GarminConnectConnectionError
           | None => Ok tt
           end
  end.

(** ** [Garmin.get_activities] and [get_activity_id_list] *)

(** A response that passes the checks of [fetch_data] and decodes to [body]. *)
Definition good_page (resp : response) (body : pyval) : Prop :=
  status_code resp <> 429%Z /\ raise_for_status resp = None /\ json resp = Ok body.

(** The identifier [get_activity_id_list] derives from a record. *)
Definition record_id (container_repr : pyval -> string) (record : gmap string pyval)
    : string :=
  match record !! "activityId" with
  | Some v => py_str container_repr v
  | None => EmptyString
  end.

(** The type filter of the client is off, or every record of [remote] passes
    it. *)
Definition keeps_every (types : activity_types_arg) (remote : list (gmap string pyval))
    : Prop :=
  no_type_filter types = true \/
  forall record, record ∈ remote -> type_matches types (PyDict record) = Ok true.



(** ** [Garmin.upload_activities] *)

(** The answer to the upload reports a success whose internal identifier is
    [activity_id]. *)
Definition upload_reports_success (res : response) (activity_id : pyval) : Prop :=
  exists body resp successes first,
    json res = Ok body /\
    py_getitem body "detailedImportResult" = Ok resp /\
    py_getitem resp "successes" = Ok successes /\
    py_truthy successes = true /\
    py_getitem0 successes = Ok first /\
    py_getitem first "internalId" = Ok activity_id.

(** The request that corrects the activity type raises [e], or its answer
    makes [raise_for_status] raise [e]. *)
Definition type_correction_fails (answered : result response) (e : exn) : Prop :=
  answered = Err e \/ exists r, answered = Ok r /\ raise_for_status r = Some e.

(** ** The bounded gather *)

Definition count_running {A : Type} (l : list (task_state A)) : nat :=
  length (filter (fun t => is_running t = true) l).

(** The counter of the semaphore and the tasks inside it add up to the
    initial value. *)
Definition semaphore_invariant {A : Type} (n : Z) (s : gather_state A) : Prop :=
  (0 <= g_value s)%Z /\ (g_value s + Z.of_nat (in_flight s) = n)%Z.

(** ** Fault isolation of the batch *)

(** No run of [p] ends in an exception, whatever the outside answers. *)
Fixpoint never_raises {A : Type} (p : prog A) : Prop :=
  match p with
  | Ret _ => True
  | Raise _ => False
  | Do c k => forall r, never_raises (k r)
  end.

(** One move of a single task. *)
Definition task_next {A : Type} (t t' : task_state A) : Prop :=
  match t with
  | Waiting p => t' = Running p
  | Running (Ret a) => t' = Finished (Ok a)
  | Running (Raise e) => t' = Finished (Err e)
  | Running (Do c k) => exists r, t' = Running (k r)
  | Finished _ => False
  end.

Definition tasks_next {A : Type} (l l' : list (task_state A)) : Prop :=
  exists i t t', l !! i = Some t /\ task_next t t' /\ l' = <[i := t']> l.

(** A task that cannot end in an exception, or has ended without one. *)
Definition task_safe {A : Type} (t : task_state A) : Prop :=
  match t with
  | Waiting p | Running p => never_raises p
  | Finished (Ok _) => True
  | Finished (Err _) => False
  end.

Definition is_finished {A : Type} (t : task_state A) : bool :=
  match t with Finished _ => true | _ => false end.

Definition is_waiting {A : Type} (t : task_state A) : bool :=
  match t with Waiting _ => true | _ => false end.

(** ** One schedule: the tasks one after the other *)

(** The tasks run to their end in the order of the list. *)
Fixpoint run_all {A : Type} (E : env) (tasks : list (prog A)) (w : world)
    : list (result A) * world :=
  match tasks with
  | [] => ([], w)
  | p :: tasks' =>
      let '(r, w1) := run E p w in
      let '(rs, w2) := run_all E tasks' w1 in
      (r :: rs, w2)
  end.

(** ** The archive across runs *)







(** The world a later process starts from: the same folder and the same
    remote history, a fresh client object. *)
Definition next_run (w : world) : world := with_login false w.



(** *** Complete runs of the entry point *)

(** A run of [download_new_activities] from [w] that lists the remote
    identifiers [listed], schedules [scheduled], sees its batch return and
    ends in [w_end]. *)
Definition sync_run (container_repr : pyval -> string) (E : env) (fuel : nat)
    (client : Garmin) (w : world) (listed scheduled : list string) (w_end : world)
    : Prop :=
  exists w_login w_listed s0 s_end results r,
    run E (login client) w = (Ok tt, w_login) /\
    is_ok (oracle E (w_trace w_login) _ ListDir) = true /\
    run E (get_activity_id_list container_repr fuel client 0) (logged ListDir w_login)
    = (Ok listed, w_listed) /\
    scheduled = to_generate_garmin_ids_of listed (downloaded_ids_of (w_archive w_login)) /\
    download_batch client scheduled w_listed = Ok s0 /\
    rtc (gather_step E) s0 s_end /\
    gather_returns s_end results /\
    run E rebuild_and_close (g_world s_end) = (r, w_end).

(** The entry point with its batch run task after task. *)
Definition sync_sequentially (container_repr : pyval -> string) (E : env) (fuel : nat)
    (client : Garmin) (w : world) : option (list string * list string * world) :=
  match run E (login client) w with
  | (Ok _, w_login) =>
      if is_ok (oracle E (w_trace w_login) _ ListDir) then
        match run E (get_activity_id_list container_repr fuel client 0)
                (logged ListDir w_login) with
        | (Ok listed, w_listed) =>
            let scheduled :=
              to_generate_garmin_ids_of listed (downloaded_ids_of (w_archive w_login)) in
            let '(rs, w_batch) :=
              run_all E (save_garmin_activity client <$> scheduled) w_listed in
            if forallb is_ok rs
            then Some (listed, scheduled, (run E rebuild_and_close w_batch).2)
            else None
        | (Err _, _) => None
        end
      else None
  | (Err _, _) => None
  end.

(** ** Further vocabulary *)

(** Following the keys [keys] from [dct], every one of them present, leads to
    [v]. *)
Inductive path_value : pyval -> list string -> pyval -> Prop :=
| path_here (dct : pyval) : path_value dct [] dct
| path_step (m : gmap string pyval) (key : string) (v : pyval) (keys : list string)
    (r : pyval) :
    m !! key = Some v -> path_value v keys r -> path_value (PyDict m) (key :: keys) r.

Definition is_dict (v : pyval) : bool :=
  match v with PyDict _ => true | _ => false end.

(** The type key of a record, when it has one and it is a string. *)
Definition type_key_of (record : gmap string pyval) : option string :=
  match record !! "activityType" with
  | Some (PyDict activity_type) =>
      match activity_type !! "typeKey" with
      | Some (PyStr type_key) => Some type_key
      | _ => None
      end
  | _ => None
  end.

(** The record has a string type key and it is one of [types]. *)
Definition has_type_among (types : list string) (record : gmap string pyval) : bool :=
  match type_key_of record with
  | Some type_key => bool_decide (type_key ∈ types)
  | None => false
  end.

(** [t] occurs in [s] as a substring. *)
Definition occurs_in (t s : string) : Prop :=
  exists before after, s = before +:+ t +:+ after.

(** The record has a string type key and [str_contains] finds it in [s]. *)
Definition has_type_inside (s : string) (record : gmap string pyval) : bool :=
  match type_key_of record with
  | Some type_key => str_contains type_key s
  | None => false
  end.

(** The GET of a download raises, or its answer fails [raise_for_status]. *)
Definition download_fails (answered : result response) : Prop :=
  match answered with
  | Err _ => True
  | Ok resp => raise_for_status resp <> None
  end.

(** The answer to an upload does not decode to a mapping with the key
    [detailedImportResult]. *)
Definition upload_answer_unreadable (res : response) : Prop :=
  forall body resp,
    json res = Ok body -> py_getitem body "detailedImportResult" <> Ok resp.


(** The calls [save_garmin_activity] may make in the [fit] format. *)
Definition is_get_or_extract (ev : event) : bool :=
  match ev with
  | Called c =>
      match c with
      | ReqGet _ | ExtractAll _ => true
      | _ => false
      end
  end.

(** * Example worlds

    Environments and clients for the concrete runs below.  The oracle of an
    environment is not consulted for [GetIsLogin] and [SetIsLogin], and only
    for success or failure for the calls on the archive folder; see
    [answer]. *)

(** ** Responses and clients *)

(** Status 200 with a JSON body. *)
Definition ok_response (body : pyval) : response :=
  {| status_code := 200; text := EmptyString; raise_for_status := None;
     json := Ok body; read := EmptyString |}.

(** An error status, on which [raise_for_status] raises. *)
Definition status_response (status : Z) : response :=
  {| status_code := status; text := EmptyString; raise_for_status := Some HTTPStatusError;
     json := Err JSONDecodeError; read := EmptyString |}.

(** Status 200 with a body that is not JSON. *)
Definition page_response (page : string) : response :=
  {| status_code := 200; text := page; raise_for_status := None;
     json := Err JSONDecodeError; read := page |}.

(** A sign-in answer that embeds a service-ticket URL. *)
Definition ticket_page : string :=
  "var response_url = " +:+
  String dquote ("https:\/\/connect.garmin.com?ticket=ST-0123456-abcdef" +:+
  String dquote ";").

(** A sign-in answer without one. *)
Definition no_ticket_page : string := "<html>Invalid credentials</html>".

(** A rendering for containers; no example identifier is a container. *)
Definition no_repr (v : pyval) : string := "<container>".

(** [all] mode, runs only. *)
Definition example_client : Garmin :=
  Garmin_init "runner@example.com" "secret" None false "gpx" "all" (TypesList ["running"]).


(** [recent] mode, one file per activity. *)
Definition recent_client : Garmin :=
  Garmin_init "runner@example.com" "secret" None false "gpx" "recent" (TypesList []).

(** [recent] mode, zipped bundles. *)
Definition recent_fit_client : Garmin :=
  Garmin_init "runner@example.com" "secret" None false "fit" "recent" (TypesList []).

Definition example_url : string :=
  activities_url example_client 0 100.

(** A world whose client has signed in. *)
Definition logged_in_world (archive : list string) : world :=
  {| w_is_login := true; w_archive := archive; w_trace := [] |}.

(** The archive of the scenario of the specification. *)
Definition archive_111_222 : world := initial_world ["111.gpx"; "222.gpx"].

(** ** Environments *)

(** A service without activities on which every call succeeds: the sign-in
    page holds a ticket, listings are empty, uploads and disk operations go
    through. *)
Definition calm (X : Type) (c : call X) : result X :=
  match c in call T return result T with
  | CfGet _ _ => Ok (page_response EmptyString)
  | CfPost _ _ _ => Ok (page_response ticket_page)
  | ReqGet _ => Ok (ok_response (PyList []))
  | ReqPost _ _ => Ok (ok_response PyNone)
  | ReqPut _ _ => Ok (ok_response PyNone)
  | ReqAclose => Ok tt
  | GetIsLogin => Ok false
  | SetIsLogin _ => Ok tt
  | ListDir => Ok []
  | ExtractAll _ => Ok tt
  | FileOpenWb _ => Ok tt
  | FileWrite _ _ => Ok tt
  | FileClose _ => Ok tt
  | MakeActivitiesFileOnly => Ok tt
  end.

(** Every request of the httpx client times out and the sign-in page answers
    without a ticket. *)
Definition env_expired_session_bad_credentials : env :=
  {| oracle := fun trace X c =>
       match c in call T return result T with
       | CfPost _ _ _ => Ok (page_response no_ticket_page)
       | ReqGet _ => Err (LibraryError "ReadTimeout")
       | ReqPost _ _ => Err (LibraryError "ReadTimeout")
       | ReqPut _ _ => Err (LibraryError "ReadTimeout")
       | c' => calm _ c'
       end;
     zip_names := fun _ => [] |}.

(** The sign-in page answers with a ticket and the ticket exchange, the GET
    without parameters, answers with HTTP status 429. *)
Definition env_rate_limited_login : env :=
  {| oracle := fun trace X c =>
       match c in call T return result T with
       | CfGet _ [] => Ok (status_response 429)
       | c' => calm _ c'
       end;
     zip_names := fun _ => [] |}.

(** One hundred rides. *)
Definition cycling_record (i : nat) : gmap string pyval :=
  {[ "activityId" := PyInt (Z.of_nat (1000 + i));
     "activityType" := PyDict {[ "typeKey" := PyStr "cycling" ]} ]}.

Definition cycling_remote : list (gmap string pyval) := cycling_record <$> seq 0 100.

(** One run. *)
Definition running_record : gmap string pyval :=
  {[ "activityId" := PyInt 5000;
     "activityType" := PyDict {[ "typeKey" := PyStr "running" ]} ]}.

(** The remote service holds [cycling_remote]: the page at offset 0 is all of
    it and every other page is empty. *)
Definition env_hundred_rides : env :=
  {| oracle := fun trace X c =>
       match c in call T return result T with
       | ReqGet url =>
           if String.eqb url (activities_url example_client 0 100)
           then Ok (ok_response (PyList (PyDict <$> cycling_remote)))
           else Ok (ok_response (PyList []))
       | c' => calm _ c'
       end;
     zip_names := fun _ => [] |}.

(** The same rides, followed by a run on the second page. *)
Definition env_rides_then_run : env :=
  {| oracle := fun trace X c =>
       match c in call T return result T with
       | ReqGet url =>
           if String.eqb url (activities_url example_client 0 100)
           then Ok (ok_response (PyList (PyDict <$> cycling_remote)))
           else if String.eqb url (activities_url example_client 100 100)
           then Ok (ok_response (PyList [PyDict running_record]))
           else Ok (ok_response (PyList []))
       | c' => calm _ c'
       end;
     zip_names := fun _ => [] |}.

(** What the upload service answers to an accepted file. *)
Definition upload_answer : pyval :=
  PyDict {[ "detailedImportResult" :=
              PyDict {[ "successes" := PyList [PyDict {[ "internalId" := PyInt 42 ]}];
                        "failures" := PyList [] ]} ]}.

(** The upload is refused at the transport level. *)
Definition env_upload_unreachable : env := env_expired_session_bad_credentials.

(** The upload is accepted and the type correction answers with status 500. *)
Definition env_type_correction_rejected : env :=
  {| oracle := fun trace X c =>
       match c in call T return result T with
       | ReqPost _ _ => Ok (ok_response upload_answer)
       | ReqPut _ _ => Ok (status_response 500)
       | c' => calm _ c'
       end;
     zip_names := fun _ => [] |}.

(** The scenario of the specification: activity 333 on the remote side.  The
    listing answers with it, [other] answers every other GET of the httpx
    client, and a bundle extracts to the entries [names]. *)
Definition listing_333 : pyval := PyList [PyDict {[ "activityId" := PyInt 333 ]}].

Definition env_activity_333 (other : response) (names : list string) : env :=
  {| oracle := fun trace X c =>
       match c in call T return result T with
       | ReqGet url =>
           if String.eqb url (activities_url recent_client 0 1)
           then Ok (ok_response listing_333)
           else Ok other
       | c' => calm _ c'
       end;
     zip_names := fun _ => names |}.

(** Downloads succeed. *)
Definition env_download_ok : env :=
  env_activity_333 (page_response "<gpx>track</gpx>") [].

(** Downloads are answered with status 500. *)
Definition env_download_refused : env :=
  env_activity_333 (status_response 500) [].

(** Downloads succeed and the bundle holds one entry named by the vendor. *)
Definition env_download_bundle : env :=
  env_activity_333 (page_response "PK") ["333_ACTIVITY.fit"].


(** ** States of a batch *)

(** Three downloads under a semaphore of two, after one and after two of them
    have been admitted. *)
Definition three_downloads : list (prog unit) :=
  save_garmin_activity example_client <$> ["101"; "102"; "103"].

Definition one_admitted : gather_state unit :=
  {| g_value := 2 - 1;
     g_tasks := <[0 := Running (save_garmin_activity example_client "101")]>
                  (Waiting <$> three_downloads);
     g_world := logged_in_world [] |}.

Definition two_admitted : gather_state unit :=
  {| g_value := 2 - 1 - 1;
     g_tasks := <[1 := Running (save_garmin_activity example_client "102")]>
                  (<[0 := Running (save_garmin_activity example_client "101")]>
                     (Waiting <$> three_downloads));
     g_world := logged_in_world [] |}.

(** The world a sequential run of the entry point leaves. *)
Definition world_after (E : env) (client : Garmin) (w : world) : world :=
  match sync_sequentially no_repr E 1000 client w with
  | Some (_, _, w') => w'
  | None => w
  end.

(** ** Further examples *)

(** A configuration file with the credentials of the [garmin] section. *)
Definition example_config : pyval :=
  PyDict {[ "sync" :=
              PyDict {[ "garmin" :=
                          PyDict {[ "email" := PyStr "runner@example.com";
                                    "password" := PyStr "secret" ]} ]} ]}.

(** A record whose type is missing. *)
Definition untyped_record : gmap string pyval :=
  {[ "activityId" := PyInt 7000 ]}.

(** The upload answers with a page that is not JSON. *)
Definition env_upload_garbled : env :=
  {| oracle := fun trace X c =>
       match c in call T return result T with
       | ReqPost _ _ => Ok (page_response "<html>Bad Gateway</html>")
       | c' => calm _ c'
       end;
     zip_names := fun _ => [] |}.

(** The upload is accepted as a duplicate: no success is reported. *)
Definition duplicate_answer : pyval :=
  PyDict {[ "detailedImportResult" :=
              PyDict {[ "successes" := PyList [];
                        "failures" := PyList [PyDict {[ "internalId" := PyInt 42 ]}] ]} ]}.

Definition env_upload_duplicate : env :=
  {| oracle := fun trace X c =>
       match c in call T return result T with
       | ReqPost _ _ => Ok (ok_response duplicate_answer)
       | c' => calm _ c'
       end;
     zip_names := fun _ => [] |}.

(** The disk is full: a file can be opened and not written. *)
Definition env_disk_full : env :=
  {| oracle := fun trace X c =>
       match c in call T return result T with
       | ReqGet _ => Ok (page_response "<gpx>track</gpx>")
       | FileWrite _ _ => Err (LibraryError "OSError")
       | c' => calm _ c'
       end;
     zip_names := fun _ => [] |}.

(** The first page of the listing holds one run and every other request of
    the httpx client times out. *)
Definition env_second_page_down : env :=
  {| oracle := fun trace X c =>
       match c in call T return result T with
       | ReqGet url =>
           if String.eqb url (activities_url example_client 0 100)
           then Ok (ok_response (PyList [PyDict running_record]))
           else Err (LibraryError "ReadTimeout")
       | c' => calm _ c'
       end;
     zip_names := fun _ => [] |}.

(** * Properties *)

(** ** The interpreter and the control operators *)

Lemma run_bind {A B : Type} (E : env) (p : prog A) (f : A -> prog B) (w : world) :
  run E (p ≫= f) w =
  match run E p w with
  | (Ok a, w') => run E (f a) w'
  | (Err e, w') => (Err e, w')
  end.
Proof.
  unfold mbind, prog_bind. revert w.
  induction p as [a | e | X c k IH]; intros w; simpl; try reflexivity.
  destruct (answer E w c) as [r w']. apply IH.
Qed.

Lemma run_try_except {A : Type} (E : env) (p : prog A) (h : exn -> prog A) (w : world) :
  run E (try_except p h) w =
  match run E p w with
  | (Ok a, w') => (Ok a, w')
  | (Err e, w') => run E (h e) w'
  end.
Proof.
  revert w. induction p as [a | e | X c k IH]; intros w; simpl; try reflexivity.
  destruct (answer E w c) as [r w']. apply IH.
Qed.

Lemma run_finally {A : Type} (E : env) (p : prog A) (q : prog unit) (w : world) :
  run E (finally p q) w =
  match run E p w with
  | (r, w') =>
      match run E q w' with
      | (Ok _, w'') => (r, w'')
      | (Err e, w'') => (Err e, w'')
      end
  end.
Proof.
  revert w. induction p as [a | e | X c k IH]; intros w; simpl.
  - change (bind q (fun _ => Ret a)) with (q ≫= fun _ => Ret a).
    rewrite run_bind. destruct (run E q w) as [[[]|e] w']; reflexivity.
  - change (bind q (fun _ => Raise e)) with (q ≫= fun _ => @Raise A e).
    rewrite run_bind. destruct (run E q w) as [[[]|e'] w']; reflexivity.
  - destruct (answer E w c) as [r w']. apply IH.
Qed.

Lemma run_lift {A : Type} (E : env) (r : result A) (w : world) :
  run E (lift r) w = (r, w).
Proof. destruct r; reflexivity. Qed.

Lemma run_perform {X : Type} (E : env) (c : call X) (w : world) :
  run E (perform c) w = answer E w c.
Proof.
  unfold perform. simpl. destruct (answer E w c) as [r w']. apply run_lift.
Qed.

(** The recursion equation of [Garmin.fetch_data]. *)
Lemma fetch_data_unfold (self : Garmin) (url : string) (retrying : bool) :
  fetch_data self url retrying = fetch_data_body (fetch_data self) self url retrying.
Proof. destruct retrying; reflexivity. Qed.

(** ** File names and the new-work list *)

Lemma has_char_cons (c d : ascii) (s : string) :
  has_char c (String d s) = Ascii.eqb c d || has_char c s.
Proof. reflexivity. Qed.

Lemma split_dot_0_no_dot (i : string) : has_char "."%char (split_dot_0 i) = false.
Proof.
  induction i as [| c i IH]; [reflexivity |]. simpl.
  destruct (Ascii.eqb c "."%char) eqn:Hc; [reflexivity |].
  rewrite has_char_cons, Ascii.eqb_sym, Hc. exact IH.
Qed.

Lemma split_dot_0_is_stem (i : string) : is_stem i (split_dot_0 i).
Proof.
  split; [apply split_dot_0_no_dot |].
  induction i as [| c i IH]; [left; reflexivity |]. simpl.
  destruct (Ascii.eqb_spec c "."%char) as [-> | Hc].
  - right. exists i. reflexivity.
  - destruct IH as [IH | [rest IH]].
    + left. congruence.
    + right. exists rest.
      change (String c i = String c (split_dot_0 i +:+ "." +:+ rest)).
      f_equal. exact IH.
Qed.

Lemma is_stem_unique (entry stem : string) :
  is_stem entry stem -> split_dot_0 entry = stem.
Proof.
  intros [Hno Hshape]. revert entry Hshape.
  induction stem as [| c stem IH]; intros entry Hshape.
  - destruct Hshape as [-> | [rest ->]]; reflexivity.
  - rewrite has_char_cons in Hno.
    apply orb_false_iff in Hno as [Hc Hno].
    assert (Hc' : Ascii.eqb c "."%char = false) by (rewrite Ascii.eqb_sym; exact Hc).
    destruct Hshape as [-> | [rest ->]]; simpl; rewrite Hc'; f_equal; apply IH;
      auto; right; exists rest; reflexivity.
Qed.

Lemma split_dot_0_spec (entry stem : string) :
  split_dot_0 entry = stem <-> is_stem entry stem.
Proof.
  split; [intros <-; apply split_dot_0_is_stem | apply is_stem_unique].
Qed.

Lemma startswith_dot_spec (entry : string) :
  startswith_dot entry = true <-> hidden entry.
Proof.
  unfold hidden. destruct entry as [| c entry]; simpl.
  - split; [discriminate | intros [rest H]; discriminate].
  - destruct (Ascii.eqb_spec c "."%char) as [-> | Hc].
    + split; [exists entry; reflexivity | reflexivity].
    + split; [discriminate | intros [rest H]].
      change ("." +:+ rest) with (String "."%char rest) in H. congruence.
Qed.

Lemma elem_of_downloaded_ids_of (listing : list string) (id : string) :
  id ∈ downloaded_ids_of listing <->
  exists entry, entry ∈ listing /\ ~ hidden entry /\ is_stem entry id.
Proof.
  unfold downloaded_ids_of. rewrite list_elem_of_fmap. split.
  - intros (entry & -> & Hin). apply list_elem_of_filter in Hin as [Hvis Hin].
    exists entry. split; [exact Hin |]. split; [| apply split_dot_0_is_stem].
    rewrite <- startswith_dot_spec. destruct (startswith_dot entry); [discriminate | auto].
  - intros (entry & Hin & Hvis & Hstem). exists entry.
    split; [symmetry; apply is_stem_unique, Hstem |].
    apply list_elem_of_filter. split; [| exact Hin].
    rewrite <- startswith_dot_spec in Hvis. destruct (startswith_dot entry); [tauto | reflexivity].
Qed.

(** C1.  The new-work list is the set difference of the remote identifiers
    and the local identifiers, the local identifiers being the stems (the
    part before the first dot) of the entries of the archive folder that are
    not hidden; it holds no identifier twice.  Its order is that of the set
    iteration and nothing more is said about it. *)
Theorem new_work_is_set_difference (R L : list string) :
  NoDup (to_generate_garmin_ids_of R (downloaded_ids_of L)) /\
  (forall id : string,
     id ∈ to_generate_garmin_ids_of R (downloaded_ids_of L) <->
     id ∈ R /\ ~ exists entry, entry ∈ L /\ ~ hidden entry /\ is_stem entry id) /\
  (list_to_set (to_generate_garmin_ids_of R (downloaded_ids_of L)) : gset string)
  = list_to_set R ∖ list_to_set (downloaded_ids_of L).
Proof.
  unfold to_generate_garmin_ids_of. split; [apply NoDup_elements |]. split.
  - intros id. rewrite elem_of_elements, elem_of_difference.
    rewrite !elem_of_list_to_set, elem_of_downloaded_ids_of. reflexivity.
  - apply set_eq. intros id.
    rewrite elem_of_list_to_set, elem_of_elements. reflexivity.
Qed.

(** ** Identifier extraction *)

Lemma map_raising_total {A B : Type} (f : A -> result B) (g : A -> B) (l : list A) :
  (forall a, a ∈ l -> f a = Ok (g a)) -> map_raising f l = Ok (g <$> l).
Proof.
  induction l as [| a l IH]; intros Hf; [reflexivity |]. simpl.
  rewrite (Hf a) by apply list_elem_of_here. simpl.
  rewrite IH; [reflexivity |]. intros b Hb. apply Hf. by apply list_elem_of_further.
Qed.

(** C10.  Identifier extraction from a page of activity records never raises
    and yields one string per record: [str] of the value under [activityId],
    and the empty string for a record without that key. *)
Theorem activity_ids_total (container_repr : pyval -> string)
    (records : list (gmap string pyval)) :
  activity_ids container_repr (PyList (PyDict <$> records)) =
  Ok ((fun record =>
         match record !! "activityId" with
         | Some v => py_str container_repr v
         | None => EmptyString
         end) <$> records).
Proof.
  unfold activity_ids. simpl.
  rewrite (map_raising_total _
             (fun a => match a with
                       | PyDict record =>
                           match record !! "activityId" with
                           | Some v => py_str container_repr v
                           | None => EmptyString
                           end
                       | _ => EmptyString
                       end)).
  - rewrite <- list_fmap_compose. reflexivity.
  - intros a Ha. apply list_elem_of_fmap in Ha as (record & -> & _). simpl.
    destruct (record !! "activityId"); reflexivity.
Qed.

(** ** Traces *)

Lemma all_calls_bind {A B : Type} (P : event -> Prop) (p : prog A) (f : A -> prog B) :
  all_calls P p -> (forall a, all_calls P (f a)) -> all_calls P (p ≫= f).
Proof.
  unfold mbind, prog_bind. intros Hp Hf.
  induction p as [a | e | X c k IH]; simpl in *; auto.
  destruct Hp as [Hc Hk]. split; auto.
Qed.

Lemma all_calls_try_except {A : Type} (P : event -> Prop) (p : prog A) (h : exn -> prog A) :
  all_calls P p -> (forall e, all_calls P (h e)) -> all_calls P (try_except p h).
Proof.
  intros Hp Hh. induction p as [a | e | X c k IH]; simpl in *; auto.
  destruct Hp as [Hc Hk]. split; auto.
Qed.

Lemma all_calls_lift {A : Type} (P : event -> Prop) (r : result A) : all_calls P (lift r).
Proof. destruct r; exact I. Qed.

Lemma all_calls_perform {X : Type} (P : event -> Prop) (c : call X) :
  P (Called c) -> all_calls P (perform c).
Proof. intros Hc. split; [exact Hc | intros r; apply all_calls_lift]. Qed.

Lemma answer_trace (E : env) (w : world) {X : Type} (c : call X) :
  w_trace (answer E w c).2 = Called c :: w_trace w.
Proof.
  unfold answer. destruct c; simpl; try reflexivity;
    destruct (oracle E (w_trace w) _ _); reflexivity.
Qed.

Lemma run_trace {A : Type} (E : env) (P : event -> Prop) (p : prog A) (w : world) :
  all_calls P p ->
  exists new, w_trace (run E p w).2 = new ++ w_trace w /\ Forall P new.
Proof.
  revert w. induction p as [a | e | X c k IH]; intros w Hp; simpl in *.
  - exists []. auto.
  - exists []. auto.
  - destruct Hp as [Hc Hk].
    pose proof (answer_trace E w c) as Htr.
    destruct (answer E w c) as [r w1]. simpl in Htr.
    destruct (IH r w1 (Hk r)) as (new & Hnew & HP).
    exists (new ++ [Called c]). rewrite Hnew, Htr, <- app_assoc. split; [reflexivity |].
    apply Forall_app. auto.
Qed.

Lemma req_get_count_app (new : list event) (w w' : world) :
  w_trace w' = new ++ w_trace w ->
  Forall (fun ev => is_ReqGet ev = false) new ->
  req_get_count w' = req_get_count w.
Proof.
  unfold req_get_count. intros -> Hnew. rewrite filter_app, length_app.
  induction Hnew as [| ev new Hev Hnew IH]; [reflexivity |].
  rewrite filter_cons_False; [exact IH | congruence].
Qed.

Lemma req_get_count_logged_ReqGet (url : string) (w : world) :
  req_get_count (logged (ReqGet url) w) = S (req_get_count w).
Proof. reflexivity. Qed.

Lemma answer_CfGet (E : env) (w : world) (url : string) (params : list (string * string)) :
  answer E w (CfGet url params) =
  (oracle E (w_trace w) _ (CfGet url params), logged (CfGet url params) w).
Proof. reflexivity. Qed.

Lemma answer_CfPost (E : env) (w : world) (url : string) (params data : list (string * string)) :
  answer E w (CfPost url params data) =
  (oracle E (w_trace w) _ (CfPost url params data), logged (CfPost url params data) w).
Proof. reflexivity. Qed.

Lemma answer_ReqGet (E : env) (w : world) (url : string) :
  answer E w (ReqGet url) = (oracle E (w_trace w) _ (ReqGet url), logged (ReqGet url) w).
Proof. reflexivity. Qed.

Lemma answer_ReqPost (E : env) (w : world) (url file : string) :
  answer E w (ReqPost url file) =
  (oracle E (w_trace w) _ (ReqPost url file), logged (ReqPost url file) w).
Proof. reflexivity. Qed.

Lemma answer_ReqPut (E : env) (w : world) (url data : string) :
  answer E w (ReqPut url data) =
  (oracle E (w_trace w) _ (ReqPut url data), logged (ReqPut url data) w).
Proof. reflexivity. Qed.

Lemma answer_GetIsLogin (E : env) (w : world) :
  answer E w GetIsLogin = (Ok (w_is_login w), logged GetIsLogin w).
Proof. reflexivity. Qed.

(** [Garmin.login] talks to the cloudscraper session only. *)
Lemma login_all_calls (self : Garmin) :
  all_calls (fun ev => is_ReqGet ev = false) (login self).
Proof.
  unfold login. apply all_calls_bind.
  - apply all_calls_try_except; [| intros; exact I].
    apply all_calls_bind; [apply all_calls_perform; reflexivity |].
    intros _. apply all_calls_perform; reflexivity.
  - intros response. destruct (re_search_ticket (text response)); [| exact I].
    apply all_calls_try_except; [| intros; exact I].
    apply all_calls_bind; [apply all_calls_perform; reflexivity |].
    intros r. destruct (status_code r =? 429)%Z; [exact I |].
    destruct (raise_for_status r); [exact I |].
    apply all_calls_perform; reflexivity.
Qed.

Lemma login_req_get_count (E : env) (self : Garmin) (w : world) :
  req_get_count (run E (login self) w).2 = req_get_count w.
Proof.
  destruct (run_trace E _ (login self) w (login_all_calls self)) as (new & Hnew & HP).
  eapply req_get_count_app; eauto.
Qed.

(** ** [Garmin.fetch_data] *)

Lemma run_fetch_attempt (E : env) (url : string) (w : world) :
  run E (fetch_attempt url) w =
  (attempt_outcome (oracle E (w_trace w) _ (ReqGet url)), logged (ReqGet url) w).
Proof.
  unfold fetch_attempt. rewrite run_bind, run_perform. simpl.
  destruct (oracle E (w_trace w) response (ReqGet url)) as [resp | e]; simpl; [| reflexivity].
  destruct (status_code resp =? 429)%Z; [reflexivity |].
  destruct (raise_for_status resp); [reflexivity |]. apply run_lift.
Qed.

Lemma run_fetch_data_retrying (E : env) (self : Garmin) (url : string) (w : world) :
  run E (fetch_data self url true) w =
  (match attempt_outcome (oracle E (w_trace w) _ (ReqGet url)) with
   | Ok v => Ok v
   | Err _ => Err GarminConnectConnectionError
   end, logged (ReqGet url) w).
Proof.
  unfold fetch_data, fetch_data_body. rewrite run_try_except, run_fetch_attempt.
  destruct (attempt_outcome _); reflexivity.
Qed.

(** The outcome of [fetch_data], attempt by attempt. *)
Lemma run_fetch_data (E : env) (self : Garmin) (url : string) (w : world) :
  run E (fetch_data self url false) w =
  match attempt_outcome (oracle E (w_trace w) _ (ReqGet url)) with
  | Ok v => (Ok v, logged (ReqGet url) w)
  | Err _ =>
      match run E (login self) (logged (ReqGet url) w) with
      | (Err e, w2) => (Err e, w2)
      | (Ok _, w2) =>
          (match attempt_outcome (oracle E (w_trace w2) _ (ReqGet url)) with
           | Ok v => Ok v
           | Err _ => Err GarminConnectConnectionError
           end, logged (ReqGet url) w2)
      end
  end.
Proof.
  rewrite fetch_data_unfold. unfold fetch_data_body.
  rewrite run_try_except, run_fetch_attempt.
  destruct (attempt_outcome (oracle E (w_trace w) response (ReqGet url))) as [v | e];
    [reflexivity |].
  rewrite run_bind.
  destruct (run E (login self) (logged (ReqGet url) w)) as [[[] | e'] w2]; [| reflexivity].
  apply run_fetch_data_retrying.
Qed.

(** C3 (amended).  [fetch_data] sends the GET once or twice.  When the first
    attempt succeeds its value is returned.  When it fails, [login] runs; if
    [login] raises, its exception propagates and no second GET is sent; if
    [login] returns, the GET is sent exactly once more, its value is returned
    when it succeeds and [GarminConnectConnectionError] is raised when it
    fails. *)
Theorem fetch_data_relogin_retry (E : env) (self : Garmin) (url : string) (w : world) :
  run E (fetch_data self url false) w =
  match attempt_outcome (oracle E (w_trace w) _ (ReqGet url)) with
  | Ok v => (Ok v, logged (ReqGet url) w)
  | Err _ =>
      match run E (login self) (logged (ReqGet url) w) with
      | (Err e, w2) => (Err e, w2)
      | (Ok _, w2) =>
          (match attempt_outcome (oracle E (w_trace w2) _ (ReqGet url)) with
           | Ok v => Ok v
           | Err _ => Err GarminConnectConnectionError
           end, logged (ReqGet url) w2)
      end
  end /\
  (req_get_count w < req_get_count (run E (fetch_data self url false) w).2
                   <= req_get_count w + 2)%nat.
Proof.
  split; [apply run_fetch_data |]. rewrite run_fetch_data.
  destruct (attempt_outcome (oracle E (w_trace w) response (ReqGet url))) as [v | e].
  - simpl. rewrite req_get_count_logged_ReqGet. lia.
  - pose proof (login_req_get_count E self (logged (ReqGet url) w)) as Hlogin.
    rewrite req_get_count_logged_ReqGet in Hlogin.
    destruct (run E (login self) (logged (ReqGet url) w)) as [[[] | e'] w2];
      simpl in *; rewrite ?req_get_count_logged_ReqGet; lia.
Qed.

(** C3, as stated, fails when the relogin itself fails: the first GET times
    out, the sign-in page holds no ticket, and [fetch_data] raises
    [GarminConnectAuthenticationError] after a single GET. *)
Lemma fetch_data_no_retry_when_login_raises :
  let w := initial_world [] in
  let out := run env_expired_session_bad_credentials
               (fetch_data example_client example_url false) w in
  is_ok (attempt_outcome
           (oracle env_expired_session_bad_credentials (w_trace w) _ (ReqGet example_url)))
  = false /\
  out.1 = Err GarminConnectAuthenticationError /\
  req_get_urls out.2 = [example_url].
Proof. vm_compute. auto. Qed.

(** ** [Garmin.login] *)

(** The outcome of [login], answer by answer. *)
Lemma run_login (E : env) (self : Garmin) (w : world) :
  let signin := SIGNIN_URL (URL_DICT self) in
  let get := CfGet signin (login_params self) in
  let post := CfPost signin (login_params self) (login_data self) in
  let w1 := logged get w in
  let w2 := logged post w1 in
  run E (login self) w =
  match oracle E (w_trace w) _ get with
  | Err _ => (Err GarminConnectConnectionError, w1)
  | Ok _ =>
      match oracle E (w_trace w1) _ post with
      | Err _ => (Err GarminConnectConnectionError, w2)
      | Ok response =>
          match re_search_ticket (text response) with
          | None => (Err GarminConnectAuthenticationError, w2)
          | Some group1 =>
              let exchange := CfGet (remove_backslashes group1) [] in
              let w3 := logged exchange w2 in
              match exchange_outcome (oracle E (w_trace w2) _ exchange) with
              | Err e => (Err e, w3)
              | Ok _ => (Ok tt, with_login true (logged (SetIsLogin true) w3))
              end
          end
      end
  end.
Proof.
  intros signin get post w1 w2. subst signin get post w1 w2. unfold login.
  rewrite run_bind, run_try_except, run_bind, run_perform, answer_CfGet.
  destruct (oracle E (w_trace w) response _) as [r0 | e0]; cbv beta iota;
    [| reflexivity].
  rewrite run_perform, answer_CfPost.
  destruct (oracle E _ response (CfPost _ _ _)) as [r1 | e1]; cbv beta iota;
    [| reflexivity].
  destruct (re_search_ticket (text r1)) as [group1 |]; [| reflexivity].
  rewrite run_try_except, run_bind, run_perform, answer_CfGet.
  unfold exchange_outcome.
  destruct (oracle E _ response (CfGet (remove_backslashes group1) []))
    as [r2 | e2]; cbv beta iota; [| reflexivity].
  destruct (status_code r2 =? 429)%Z; [reflexivity |].
  destruct (raise_for_status r2); [reflexivity |].
  rewrite run_perform. reflexivity.
Qed.

(** [login] never raises [GarminConnectTooManyRequestsError]. *)
Lemma login_never_raises_TooManyRequests (E : env) (self : Garmin) (w : world) :
  (run E (login self) w).1 <> Err GarminConnectTooManyRequestsError.
Proof.
  rewrite run_login.
  repeat match goal with
         | |- context [match ?x with _ => _ end] => destruct x eqn:?; simpl
         end; try discriminate.
  unfold exchange_outcome in *.
  repeat match goal with
         | H : context [match ?x with _ => _ end] |- _ => destruct x eqn:?; simpl in H
         end; congruence.
Qed.

(** C4, at the failing input: the sign-in page yields a ticket URL and the
    ticket exchange answers with status 429; [login] raises
    [GarminConnectConnectionError], not [GarminConnectTooManyRequestsError],
    and leaves [is_login] unset. *)
Theorem login_status_429_raises_ConnectionError :
  let out := run env_rate_limited_login (login example_client) (initial_world []) in
  re_search_ticket ticket_page = Some "https:\/\/connect.garmin.com?ticket=ST-0123456-abcdef" /\
  out.1 = Err GarminConnectConnectionError /\
  w_is_login out.2 = false.
Proof. vm_compute. auto. Qed.

(** The other cases of [login]: no ticket raises
    [GarminConnectAuthenticationError]; a transport failure raises
    [GarminConnectConnectionError]; success sets [is_login]. *)
Lemma login_other_outcomes (E : env) (self : Garmin) (w : world) :
  let signin := SIGNIN_URL (URL_DICT self) in
  let get := CfGet signin (login_params self) in
  let post := CfPost signin (login_params self) (login_data self) in
  forall page,
    is_ok (oracle E (w_trace w) _ get) = true ->
    oracle E (w_trace (logged get w)) _ post = Ok page ->
    (re_search_ticket (text page) = None ->
     (run E (login self) w).1 = Err GarminConnectAuthenticationError) /\
    (forall group1 w',
       re_search_ticket (text page) = Some group1 ->
       run E (login self) w = (Ok tt, w') ->
       w_is_login w' = true).
Proof.
  intros signin get post page Hget Hpost. rewrite run_login.
  fold signin get post. rewrite Hpost.
  destruct (oracle E (w_trace w) response get); [| discriminate].
  split.
  - intros ->. reflexivity.
  - intros group1 w' ->. simpl.
    destruct (exchange_outcome _); intros [= <-]. reflexivity.
Qed.

(** ** [Garmin.get_activities] and [get_activity_id_list] *)

Lemma attempt_outcome_good_page (resp : response) (body : pyval) :
  good_page resp body -> attempt_outcome (Ok resp) = Ok body.
Proof.
  intros (Hstatus & Hraise & Hjson). unfold attempt_outcome.
  apply Z.eqb_neq in Hstatus. rewrite Hstatus, Hraise. exact Hjson.
Qed.

Lemma run_get_activities (E : env) (self : Garmin) (start limit : Z) (w : world) :
  w_is_login w = true ->
  run E (get_activities self start limit) w =
  match run E (fetch_data self (activities_url self start limit) false)
          (logged GetIsLogin w) with
  | (Ok activities, w') => (select_activity_types (activity_types self) activities, w')
  | (Err e, w') => (Err e, w')
  end.
Proof.
  intros Hlogin. unfold get_activities.
  rewrite run_bind, run_perform, answer_GetIsLogin, Hlogin. cbv beta iota.
  rewrite run_bind. simpl negb. cbv beta iota. simpl (run E (Ret tt) _). cbv beta iota.
  rewrite run_bind.
  destruct (run E (fetch_data self (activities_url self start limit) false) _)
    as [[activities | e] w']; [apply run_lift | reflexivity].
Qed.

Lemma run_get_activities_page (E : env) (self : Garmin) (start limit : Z) (w : world)
    (resp : response) (body : pyval) :
  w_is_login w = true ->
  oracle E (w_trace (logged GetIsLogin w)) _ (ReqGet (activities_url self start limit))
  = Ok resp ->
  good_page resp body ->
  run E (get_activities self start limit) w =
  (select_activity_types (activity_types self) body,
   logged (ReqGet (activities_url self start limit)) (logged GetIsLogin w)).
Proof.
  intros Hlogin Horacle Hgood.
  rewrite run_get_activities by exact Hlogin.
  rewrite run_fetch_data, Horacle, (attempt_outcome_good_page _ _ Hgood). reflexivity.
Qed.

Lemma get_activity_id_list_unfold (container_repr : pyval -> string) (fuel : nat)
    (client : Garmin) (start : Z) :
  sync_type client = "all" ->
  get_activity_id_list container_repr fuel client start =
  (activities ← get_activities client start 100;
   n ← lift (py_len activities);
   if (n >? 0)%Z then
     ids ← lift (activity_ids container_repr activities);
     match fuel with
     | O => Raise RecursionError
     | S fuel' =>
         rest ← get_activity_id_list container_repr fuel' client (start + 100)%Z;
         Ret (ids ++ rest)
     end
   else Ret []).
Proof. intros Hall. destruct fuel; simpl; rewrite Hall; reflexivity. Qed.

Lemma req_get_urls_logged_ReqGet (url : string) (w : world) :
  req_get_urls (logged (ReqGet url) w) = req_get_urls w ++ [url].
Proof. unfold req_get_urls. simpl. apply reverse_cons. Qed.

Lemma req_get_urls_logged_GetIsLogin (w : world) :
  req_get_urls (logged GetIsLogin w) = req_get_urls w.
Proof. reflexivity. Qed.

(** C9.  In [all] mode with a type filter, the recursion ends at the first
    page whose filtered list is empty, whatever the unfiltered page held and
    whatever later pages hold: no further page is requested and no identifier
    of this page is returned. *)
Theorem pagination_stops_on_empty_filtered_page (container_repr : pyval -> string)
    (E : env) (client : Garmin) (start : Z) (fuel : nat) (w : world)
    (resp : response) (items : list pyval) :
  sync_type client = "all" ->
  w_is_login w = true ->
  no_type_filter (activity_types client) = false ->
  oracle E (w_trace (logged GetIsLogin w)) _ (ReqGet (activities_url client start 100))
  = Ok resp ->
  good_page resp (PyList items) ->
  filter_raising (type_matches (activity_types client)) items = Ok [] ->
  (run E (get_activity_id_list container_repr fuel client start) w).1 = Ok [] /\
  req_get_urls (run E (get_activity_id_list container_repr fuel client start) w).2
  = req_get_urls w ++ [activities_url client start 100].
Proof.
  intros Hall Hlogin Hfilter Horacle Hgood Hempty.
  assert (Hrun : run E (get_activity_id_list container_repr fuel client start) w =
                 (Ok [], logged (ReqGet (activities_url client start 100))
                           (logged GetIsLogin w))).
  { rewrite get_activity_id_list_unfold by exact Hall.
    rewrite run_bind, (run_get_activities_page E client start 100 w resp (PyList items))
      by assumption.
    unfold select_activity_types. rewrite Hfilter. simpl py_iter.
    unfold result_bind. rewrite Hempty. reflexivity. }
  rewrite Hrun. split; [reflexivity |].
  simpl snd. rewrite req_get_urls_logged_ReqGet. reflexivity.
Qed.

Lemma filter_raising_all {A : Type} (cond : A -> result bool) (l : list A) :
  (forall x, x ∈ l -> cond x = Ok true) -> filter_raising cond l = Ok l.
Proof.
  induction l as [| x l IH]; intros Hall; [reflexivity |]. simpl.
  rewrite (Hall x) by apply list_elem_of_here. simpl.
  rewrite IH; [reflexivity |]. intros y Hy. apply Hall. by apply list_elem_of_further.
Qed.

Lemma select_keeps_every (types : activity_types_arg)
    (remote page : list (gmap string pyval)) :
  keeps_every types remote ->
  page ⊆ remote ->
  select_activity_types types (PyList (PyDict <$> page)) = Ok (PyList (PyDict <$> page)).
Proof.
  intros Hkeeps Hsub. unfold select_activity_types.
  destruct (no_type_filter types) eqn:Hno; [reflexivity |].
  destruct Hkeeps as [Hoff | Hall]; [congruence |]. simpl.
  rewrite filter_raising_all; [reflexivity |].
  intros x Hx. apply list_elem_of_fmap in Hx as (record & -> & Hrecord).
  apply Hall, Hsub, Hrecord.
Qed.


Lemma activity_ids_records (container_repr : pyval -> string)
    (records : list (gmap string pyval)) :
  activity_ids container_repr (PyList (PyDict <$> records)) =
  Ok (record_id container_repr <$> records).
Proof.
  unfold activity_ids. simpl.
  rewrite (map_raising_total _
             (fun a => match a with
                       | PyDict record => record_id container_repr record
                       | _ => EmptyString
                       end)).
  - rewrite <- list_fmap_compose. reflexivity.
  - intros a Ha. apply list_elem_of_fmap in Ha as (record & -> & _). simpl.
    unfold record_id. destruct (record !! "activityId"); reflexivity.
Qed.


(** *** Listing URLs of different offsets differ *)









Lemma pagination_stops_on_empty_filtered_page_witness :
  (run env_rides_then_run (get_activity_id_list no_repr 1000 example_client 0)
     (logged_in_world [])).1 = Ok [] /\
  req_get_urls (run env_rides_then_run (get_activity_id_list no_repr 1000 example_client 0)
                  (logged_in_world [])).2
  = req_get_urls (logged_in_world []) ++ [activities_url example_client 0 100].
Proof.
  apply (pagination_stops_on_empty_filtered_page no_repr env_rides_then_run example_client
           0 1000 (logged_in_world [])
           (ok_response (PyList (PyDict <$> cycling_remote)))
           (PyDict <$> cycling_remote)).
  - reflexivity.
  - reflexivity.
  - reflexivity.
  - reflexivity.
  - repeat split. discriminate.
  - vm_compute. reflexivity.
Defined.

(** ** [Garmin.upload_activities] *)

(** C8.  In the loop of [upload_activities], when the upload request of an
    item raises, the item is skipped and the loop goes on with the remaining
    items; when the upload of an item is reported as a success and the
    request that corrects its type fails, the exception leaves the loop. *)
Theorem upload_failure_asymmetry (container_repr : pyval -> string) (E : env)
    (self : Garmin) (file garmin_type : string) (files' : list (string * string))
    (w : world) :
  let post := ReqPost (upload_url self) file in
  (forall e,
     oracle E (w_trace w) _ post = Err e ->
     run E (upload_loop container_repr self ((file, garmin_type) :: files')) w
     = run E (upload_loop container_repr self files') (logged post w)) /\
  (forall res activity_id e,
     oracle E (w_trace w) _ post = Ok res ->
     upload_reports_success res activity_id ->
     let put := ReqPut (format_activity_id (activity_url self)
                          (py_str container_repr activity_id)) garmin_type in
     type_correction_fails (oracle E (w_trace (logged post w)) _ put) e ->
     run E (upload_loop container_repr self ((file, garmin_type) :: files')) w
     = (Err e, logged put (logged post w))).
Proof.
  intros post. subst post. split.
  - intros e Hpost. cbn [upload_loop run]. rewrite answer_ReqPost, Hpost. reflexivity.
  - intros res activity_id e Hpost
      (body & resp & successes & first & Hjson & Hresp & Hsucc & Htrue & Hfirst & Hid)
      put Hput. subst put.
    cbn [upload_loop run]. rewrite answer_ReqPost, Hpost.
    rewrite run_bind, run_try_except, run_lift, Hjson.
    cbn [result_bind]. rewrite Hresp. cbv beta iota.
    rewrite run_bind, run_lift, Hsucc. cbv beta iota.
    rewrite run_bind, Htrue.
    rewrite run_bind, run_lift, Hfirst. cbv beta iota.
    rewrite run_bind, run_lift, Hid. cbv beta iota.
    rewrite run_bind, run_perform, answer_ReqPut.
    destruct Hput as [-> | (r & -> & Hraise)]; cbv beta iota; [reflexivity |].
    rewrite Hraise. reflexivity.
Qed.

Lemma upload_failure_asymmetry_witness :
  run env_upload_unreachable
    (upload_loop no_repr example_client [("<gpx>a</gpx>", "running"); ("<gpx>b</gpx>", "hiking")])
    (logged_in_world [])
  = run env_upload_unreachable
      (upload_loop no_repr example_client [("<gpx>b</gpx>", "hiking")])
      (logged (ReqPost (upload_url example_client) "<gpx>a</gpx>") (logged_in_world [])) /\
  run env_type_correction_rejected
    (upload_loop no_repr example_client [("<gpx>a</gpx>", "running"); ("<gpx>b</gpx>", "hiking")])
    (logged_in_world [])
  = (Err HTTPStatusError,
     logged (ReqPut "https://connect.garmin.com/proxy/activity-service/activity/42" "running")
       (logged (ReqPost (upload_url example_client) "<gpx>a</gpx>") (logged_in_world []))).
Proof.
  split.
  - apply (upload_failure_asymmetry no_repr env_upload_unreachable example_client
             "<gpx>a</gpx>" "running" [("<gpx>b</gpx>", "hiking")] (logged_in_world []))
      with (e := LibraryError "ReadTimeout").
    reflexivity.
  - apply (upload_failure_asymmetry no_repr env_type_correction_rejected example_client
             "<gpx>a</gpx>" "running" [("<gpx>b</gpx>", "hiking")] (logged_in_world []))
      with (res := ok_response upload_answer) (activity_id := PyInt 42).
    + reflexivity.
    + exists upload_answer.
      exists (PyDict {[ "successes" := PyList [PyDict {[ "internalId" := PyInt 42 ]}];
                        "failures" := PyList [] ]}).
      exists (PyList [PyDict {[ "internalId" := PyInt 42 ]}]).
      exists (PyDict {[ "internalId" := PyInt 42 ]}).
      repeat split; vm_compute; reflexivity.
    + right. exists (status_response 500). split; reflexivity.
Defined.

(** ** The bounded gather *)

Section Gather.

Context {A : Type} (E : env).

Lemma count_running_cons (t : task_state A) (l : list (task_state A)) :
  count_running (t :: l) = (if is_running t then 1 else 0) + count_running l.
Proof.
  unfold count_running. destruct (is_running t) eqn:Ht.
  - rewrite filter_cons_True by exact Ht. reflexivity.
  - rewrite filter_cons_False by congruence. reflexivity.
Qed.

Lemma count_running_insert (l : list (task_state A)) (i : nat) (t t' : task_state A) :
  l !! i = Some t ->
  count_running (<[i := t']> l) + (if is_running t then 1 else 0)
  = count_running l + (if is_running t' then 1 else 0).
Proof.
  revert i. induction l as [| x l IH]; intros i Hi; [discriminate |].
  destruct i as [| i]; simpl in Hi.
  - injection Hi as ->. change (<[0 := t']> (t :: l)) with (t' :: l).
    rewrite !count_running_cons.
    destruct (is_running t), (is_running t'); lia.
  - change (<[S i := t']> (x :: l)) with (x :: <[i := t']> l).
    rewrite !count_running_cons.
    specialize (IH i Hi).
    destruct (is_running t), (is_running t'), (is_running x); lia.
Qed.

Lemma count_running_waiting (tasks : list (prog A)) :
  count_running (Waiting <$> tasks) = 0.
Proof.
  induction tasks as [| p tasks IH]; [reflexivity |].
  rewrite fmap_cons, count_running_cons. exact IH.
Qed.

Lemma semaphore_invariant_init (n : Z) (tasks : list (prog A)) (w : world)
    (s0 : gather_state A) :
  gather_with_concurrency n tasks w = Ok s0 -> semaphore_invariant n s0.
Proof.
  unfold gather_with_concurrency. destruct (Z.ltb_spec n 0); [discriminate |].
  intros [= <-]. unfold semaphore_invariant, in_flight. simpl.
  fold (count_running (Waiting <$> tasks)). rewrite count_running_waiting. lia.
Qed.

Lemma semaphore_invariant_step (n : Z) (s s' : gather_state A) :
  semaphore_invariant n s -> gather_step E s s' -> semaphore_invariant n s'.
Proof.
  unfold semaphore_invariant, in_flight. intros [Hpos Hsum] Hstep.
  fold (count_running (g_tasks s)) in Hsum.
  destruct Hstep as [s i p Hi Hfree | s i X c k r w' Hi Hanswer | s i a Hi | s i e Hi];
    simpl;
    match goal with
    | |- context [<[i := ?t']> (g_tasks s)] =>
        pose proof (count_running_insert (g_tasks s) i _ t' Hi) as Hcount;
        fold (count_running (<[i := t']> (g_tasks s)))
    end;
    simpl in Hcount; lia.
Qed.

Lemma semaphore_invariant_reachable (n : Z) (s0 s : gather_state A) :
  semaphore_invariant n s0 -> rtc (gather_step E) s0 s -> semaphore_invariant n s.
Proof.
  intros Hinit Hrtc. induction Hrtc as [| s1 s2 s3 Hstep _ IH]; [exact Hinit |].
  apply IH. eapply semaphore_invariant_step; eauto.
Qed.

End Gather.

(** C6.  From the initial state of [gather_with_concurrency n tasks], however
    the event loop schedules the tasks and whatever the outside answers, the
    number of tasks inside the semaphore never exceeds [n]; the entry point
    calls it with the ceiling 10. *)
Theorem concurrency_ceiling {A : Type} (E : env) (n : Z) (tasks : list (prog A))
    (w : world) (s0 s : gather_state A) :
  gather_with_concurrency n tasks w = Ok s0 ->
  rtc (gather_step E) s0 s ->
  (Z.of_nat (in_flight s) <= n)%Z /\
  (forall client ids w',
     download_batch client ids w'
     = gather_with_concurrency 10 (save_garmin_activity client <$> ids) w').
Proof.
  intros Hinit Hrtc. split; [| reflexivity].
  destruct (semaphore_invariant_reachable E n s0 s) as [Hpos Hsum];
    [eapply semaphore_invariant_init; eauto | exact Hrtc | lia].
Qed.

Lemma concurrency_ceiling_witness :
  in_flight two_admitted = 2 /\
  (Z.of_nat (in_flight two_admitted) <= 2)%Z /\
  (forall client ids w',
     download_batch client ids w'
     = gather_with_concurrency 10 (save_garmin_activity client <$> ids) w').
Proof.
  split; [reflexivity |].
  apply (concurrency_ceiling env_hundred_rides 2 three_downloads (logged_in_world [])
           {| g_value := 2; g_tasks := Waiting <$> three_downloads;
              g_world := logged_in_world [] |}).
  - reflexivity.
  - apply (rtc_l _ _ one_admitted).
    + exact (step_acquire env_hundred_rides
               {| g_value := 2; g_tasks := Waiting <$> three_downloads;
                  g_world := logged_in_world [] |}
               0 (save_garmin_activity example_client "101") eq_refl eq_refl).
    + apply rtc_once.
      exact (step_acquire env_hundred_rides one_admitted
               1 (save_garmin_activity example_client "102") eq_refl eq_refl).
Defined.

(** ** Fault isolation of the batch *)

Lemma never_raises_try_except {A : Type} (p : prog A) (h : exn -> prog A) :
  (forall e, never_raises (h e)) -> never_raises (try_except p h).
Proof.
  intros Hh. induction p as [a | e | X c k IH]; simpl; auto.
Qed.

Lemma save_garmin_activity_never_raises (client : Garmin) (activity_id : string) :
  never_raises (save_garmin_activity client activity_id).
Proof.
  unfold save_garmin_activity. apply never_raises_try_except. intros e. exact I.
Qed.

Section Isolation.

Context {A : Type} (E : env).

Lemma gather_step_tasks_next (s s' : gather_state A) :
  gather_step E s s' -> tasks_next (g_tasks s) (g_tasks s').
Proof.
  intros [s0 i p Hi Hfree | s0 i X c k r w' Hi Hanswer | s0 i a Hi | s0 i e Hi];
    eexists i, _, _; (split; [exact Hi |]); (split; [| reflexivity]); simpl; eauto.
Qed.

Lemma task_safe_next (t t' : task_state A) :
  task_safe t -> task_next t t' -> task_safe t'.
Proof.
  destruct t as [p | [a | e | X c k] | r]; simpl; intros Hsafe Hnext;
    try contradiction; try (subst; simpl; auto; fail).
  destruct Hnext as [r ->]. simpl. auto.
Qed.

Lemma tasks_safe_next (l l' : list (task_state A)) :
  Forall task_safe l -> tasks_next l l' -> Forall task_safe l'.
Proof.
  intros Hsafe (i & t & t' & Hi & Hnext & ->).
  apply Forall_insert; [exact Hsafe |].
  eapply task_safe_next; [| exact Hnext].
  eapply Forall_lookup_1; eauto.
Qed.

Lemma tasks_safe_reachable (s0 s : gather_state A) :
  Forall task_safe (g_tasks s0) -> rtc (gather_step E) s0 s -> Forall task_safe (g_tasks s).
Proof.
  intros Hinit Hrtc. induction Hrtc as [| s1 s2 s3 Hstep _ IH]; [exact Hinit |].
  apply IH. eapply tasks_safe_next; [exact Hinit |]. by apply gather_step_tasks_next.
Qed.

Lemma tasks_length_reachable (s0 s : gather_state A) :
  rtc (gather_step E) s0 s -> length (g_tasks s) = length (g_tasks s0).
Proof.
  intros Hrtc. induction Hrtc as [| s1 s2 s3 Hstep _ IH]; [reflexivity |].
  rewrite IH. destruct (gather_step_tasks_next _ _ Hstep) as (i & t & t' & _ & _ & ->).
  apply length_insert.
Qed.

(** *** Every schedule ends *)

Lemma task_sn (t : task_state A) : Acc (flip task_next) t.
Proof.
  assert (Hfinished : forall r, Acc (flip task_next) (@Finished A r)).
  { intros r. constructor. intros t' Hnext. destruct Hnext. }
  assert (Hrunning : forall p : prog A, Acc (flip task_next) (Running p)).
  { intros p. induction p as [a | e | X c k IH]; constructor; intros t' Hnext;
      unfold flip in Hnext; simpl in Hnext.
    - subst. apply Hfinished.
    - subst. apply Hfinished.
    - destruct Hnext as [r ->]. apply IH. }
  destruct t as [p | p | r]; auto.
  constructor. intros t' Hnext. unfold flip in Hnext. simpl in Hnext. subst. apply Hrunning.
Qed.

Lemma tasks_sn_cons (t : task_state A) (l : list (task_state A)) :
  Acc (flip task_next) t -> Acc (flip tasks_next) l -> Acc (flip tasks_next) (t :: l).
Proof.
  intros Ht. revert l. induction Ht as [t _ IHt]. intros l Hl.
  induction Hl as [l Hl IHl].
  constructor. intros l' (i & x & x' & Hi & Hnext & ->).
  destruct i as [| i]; simpl in Hi.
  - injection Hi as ->. apply IHt; [exact Hnext |]. constructor. exact Hl.
  - apply IHl. exists i, x, x'. auto.
Qed.

Lemma tasks_sn (l : list (task_state A)) : Acc (flip tasks_next) l.
Proof.
  induction l as [| t l IH].
  - constructor. intros l' (i & t & t' & Hi & _). discriminate.
  - apply tasks_sn_cons; [apply task_sn | exact IH].
Qed.

Lemma gather_sn (s : gather_state A) : sn (gather_step E) s.
Proof.
  pose proof (tasks_sn (g_tasks s)) as Hacc.
  remember (g_tasks s) as l eqn:Hl. revert s Hl.
  induction Hacc as [l _ IH]. intros s ->.
  constructor. intros s' Hstep. unfold flip in Hstep.
  eapply IH; [| reflexivity]. by apply gather_step_tasks_next.
Qed.

End Isolation.

Section Progress.

Context {A : Type} (E : env).

Lemma count_running_0 (l : list (task_state A)) :
  Forall (fun t => is_running t = false) l -> count_running l = 0.
Proof.
  induction 1 as [| t l Ht _ IH]; [reflexivity |].
  rewrite count_running_cons, Ht. exact IH.
Qed.

(** With a positive ceiling the batch is never stuck before its last task has
    finished. *)
Lemma gather_progress (n : Z) (s : gather_state A) :
  (0 < n)%Z ->
  semaphore_invariant n s ->
  Forall (fun t => is_finished t = true) (g_tasks s) \/ exists s', gather_step E s s'.
Proof.
  intros Hn [Hpos Hsum].
  destruct (decide (Exists (fun t => is_running t = true) (g_tasks s))) as [Hrun | Hnorun].
  - right. apply Exists_exists in Hrun as (t & Hin & Ht).
    apply list_elem_of_lookup in Hin as [i Hi].
    destruct t as [p | p | r]; try discriminate.
    destruct p as [a | e | X c k].
    + eexists. by eapply step_return.
    + eexists. by eapply step_raise.
    + destruct (answer E (g_world s) c) as [r w'] eqn:Hanswer.
      eexists. by eapply step_call.
  - apply not_Exists_Forall in Hnorun; [| intros t; apply _].
    assert (Hidle : Forall (fun t => is_running t = false) (g_tasks s)).
    { eapply Forall_impl; [exact Hnorun |]. intros t Ht. simpl in Ht.
      destruct (is_running t); [contradiction | reflexivity]. }
    unfold in_flight in Hsum. fold (count_running (g_tasks s)) in Hsum.
    rewrite (count_running_0 _ Hidle) in Hsum.
    destruct (decide (Exists (fun t => is_waiting t = true) (g_tasks s)))
      as [Hwait | Hnowait].
    + right. apply Exists_exists in Hwait as (t & Hin & Ht).
      apply list_elem_of_lookup in Hin as [i Hi].
      destruct t as [p | p | r]; try discriminate.
      eexists. eapply step_acquire; [exact Hi | lia].
    + left. apply not_Exists_Forall in Hnowait; [| intros t; apply _].
      apply Forall_lookup_2. intros i t Hi.
      pose proof (Forall_lookup_1 _ _ _ _ Hidle Hi) as Ht1.
      pose proof (Forall_lookup_1 _ _ _ _ Hnowait Hi) as Ht2. simpl in Ht2.
      destruct t; simpl in *; congruence.
Qed.

(** From every state that respects the semaphore, some schedule runs every
    task to its end. *)
Lemma gather_completes (n : Z) (s : gather_state A) :
  (0 < n)%Z ->
  semaphore_invariant n s ->
  exists s_end,
    rtc (gather_step E) s s_end /\
    Forall (fun t => is_finished t = true) (g_tasks s_end).
Proof.
  intros Hn. induction (gather_sn E s) as [s _ IH]. intros Hinv.
  destruct (gather_progress n s Hn Hinv) as [Hdone | [s' Hstep]].
  - exists s. split; [apply rtc_refl | exact Hdone].
  - destruct (IH s' Hstep) as (s_end & Hrtc & Hdone).
    + eapply semaphore_invariant_step; eauto.
    + exists s_end. split; [eapply rtc_l; eauto | exact Hdone].
Qed.

End Progress.

Lemma finished_safe_returns (s : gather_state unit) :
  Forall task_safe (g_tasks s) ->
  Forall (fun t => is_finished t = true) (g_tasks s) ->
  gather_returns s (replicate (length (g_tasks s)) tt).
Proof.
  unfold gather_returns. generalize (g_tasks s) as l.
  induction l as [| t l IH]; intros Hsafe Hdone; [reflexivity |].
  apply Forall_cons in Hsafe as [Ht Hsafe]. apply Forall_cons in Hdone as [Hf Hdone].
  cbn [length replicate fmap list_fmap]. f_equal; [| by apply IH].
  destruct t as [p | p | [[] | e]]; simpl in *; try discriminate; [reflexivity | contradiction].
Qed.

Lemma safe_never_raises (s : gather_state unit) (e : exn) :
  Forall task_safe (g_tasks s) -> ~ gather_raises s e.
Proof.
  intros Hsafe Hraises. unfold gather_raises in Hraises.
  eapply Forall_forall in Hsafe; [| exact Hraises]. exact Hsafe.
Qed.

Lemma download_batch_init (client : Garmin) (ids : list string) (w : world)
    (s0 : gather_state unit) :
  download_batch client ids w = Ok s0 ->
  semaphore_invariant 10 s0 /\
  Forall task_safe (g_tasks s0) /\
  length (g_tasks s0) = length ids /\
  g_world s0 = w.
Proof.
  intros Hinit. split; [eapply semaphore_invariant_init; exact Hinit |].
  unfold download_batch, gather_with_concurrency in Hinit. simpl in Hinit.
  injection Hinit as <-. simpl. split; [| split; [| reflexivity]].
  - apply Forall_fmap, Forall_fmap, Forall_forall. intros id _.
    apply save_garmin_activity_never_raises.
  - by rewrite !length_fmap.
Qed.

Lemma rebuild_and_close_trace (E : env) (w : world) :
  Called MakeActivitiesFileOnly ∈ w_trace (run E rebuild_and_close w).2.
Proof.
  unfold rebuild_and_close. rewrite run_bind, run_perform.
  change (answer E w MakeActivitiesFileOnly)
    with (oracle E (w_trace w) _ MakeActivitiesFileOnly, logged MakeActivitiesFileOnly w).
  destruct (oracle E (w_trace w) _ MakeActivitiesFileOnly) as [[] | e]; cbv beta iota.
  - rewrite run_perform.
    change (answer E (logged MakeActivitiesFileOnly w) ReqAclose)
      with (oracle E (w_trace (logged MakeActivitiesFileOnly w)) _ ReqAclose,
            logged ReqAclose (logged MakeActivitiesFileOnly w)).
    simpl. apply list_elem_of_further, list_elem_of_here.
  - simpl. apply list_elem_of_here.
Qed.

(** C5.  Every task of the batch catches its own failures: whatever the
    outside answers and however the tasks are scheduled, no task ends in an
    exception, so [gather] never raises; the batch is never stuck while a task
    is unfinished and every schedule ends, so all the tasks run to completion;
    and every run of the entry point that got as far as the batch goes on to
    the index rebuild. *)
Theorem batch_fault_isolation (E : env) (client : Garmin) (ids : list string)
    (w : world) (s0 s : gather_state unit) :
  download_batch client ids w = Ok s0 ->
  rtc (gather_step E) s0 s ->
  (forall id, never_raises (save_garmin_activity client id)) /\
  (forall e, ~ gather_raises s e) /\
  (gather_returns s (replicate (length ids) tt) \/ exists s', gather_step E s s') /\
  sn (gather_step E) s /\
  (exists s_end,
     rtc (gather_step E) s s_end /\ gather_returns s_end (replicate (length ids) tt)) /\
  (forall container_repr fuel w_start r w_end,
     run E (new_garmin_ids container_repr fuel client) w_start = (Ok ids, w) ->
     download_new_activities container_repr E fuel client w_start r w_end ->
     Called MakeActivitiesFileOnly ∈ w_trace w_end).
Proof.
  intros Hinit Hrtc.
  destruct (download_batch_init client ids w s0 Hinit) as (Hsem0 & Hsafe0 & Hlen0 & Hw0).
  pose proof (semaphore_invariant_reachable E 10 s0 s Hsem0 Hrtc) as Hsem.
  pose proof (tasks_safe_reachable E s0 s Hsafe0 Hrtc) as Hsafe.
  pose proof (tasks_length_reachable E s0 s Hrtc) as Hlen.
  split; [apply save_garmin_activity_never_raises |].
  split; [intros e; by apply safe_never_raises |].
  split; [| split; [apply gather_sn | split]].
  - destruct (gather_progress E 10 s) as [Hdone | Hstep]; [lia | exact Hsem | | by right].
    left. rewrite <- Hlen0, <- Hlen. by apply finished_safe_returns.
  - destruct (gather_completes E 10 s) as (s_end & Hend & Hdone); [lia | exact Hsem |].
    exists s_end. split; [exact Hend |].
    rewrite <- Hlen0, <- Hlen, <- (tasks_length_reachable E s s_end Hend).
    apply finished_safe_returns; [| exact Hdone].
    eapply tasks_safe_reachable; eauto.
  - intros container_repr fuel w_start r w_end Hlisting Hmain.
    destruct Hmain as [w1 e w2 Hrun | w1 ids' w2 e Hrun Hbatch
                      | w1 ids' w2 s1 s2 e Hrun Hbatch Hsteps Hraises
                      | w1 ids' w2 s1 s2 results r w3 Hrun Hbatch Hsteps Hreturns Hfinish].
    + rewrite Hlisting in Hrun. discriminate.
    + unfold download_batch, gather_with_concurrency in Hbatch. discriminate.
    + exfalso. destruct (download_batch_init client ids' w2 s1 Hbatch) as (_ & Hsafe1 & _).
      eapply safe_never_raises; [| exact Hraises].
      eapply tasks_safe_reachable; eauto.
    + pose proof (rebuild_and_close_trace E (g_world s2)) as Htrace.
      rewrite Hfinish in Htrace. exact Htrace.
Qed.

Lemma batch_fault_isolation_witness :
  let E := env_expired_session_bad_credentials in
  let client := example_client in
  let ids := ["101"; "102"] in
  let s0 := {| g_value := 10; g_tasks := Waiting <$> (save_garmin_activity client <$> ids);
               g_world := logged_in_world [] |} in
  (forall e, ~ gather_raises s0 e) /\
  sn (gather_step E) s0 /\
  (exists s_end,
     rtc (gather_step E) s0 s_end /\ gather_returns s_end (replicate (length ids) tt)).
Proof.
  intros E client ids s0.
  destruct (batch_fault_isolation E client ids (logged_in_world []) s0 s0)
    as (_ & Hnoraise & _ & Hsn & Hend & _).
  - reflexivity.
  - apply rtc_refl.
  - split; [exact Hnoraise |]. split; [exact Hsn | exact Hend].
Defined.

(** ** One schedule: the tasks one after the other *)

Section Sequential.

Context {A : Type} (E : env).

Lemma gather_state_eq (v v' : Z) (l l' : list (task_state A)) (w w' : world) :
  v = v' -> l = l' -> w = w' ->
  {| g_value := v; g_tasks := l; g_world := w |}
  = {| g_value := v'; g_tasks := l'; g_world := w' |}.
Proof. by intros -> -> ->. Qed.

Lemma running_task_steps (p : prog A) :
  forall (v : Z) (l : list (task_state A)) (w : world) (i : nat),
    l !! i = Some (Running p) ->
    rtc (gather_step E)
      {| g_value := v; g_tasks := l; g_world := w |}
      {| g_value := v + 1;
         g_tasks := <[i := Finished (run E p w).1]> l;
         g_world := (run E p w).2 |}.
Proof.
  induction p as [a | e | X c k IH]; intros v l w i Hi.
  - apply rtc_once.
    exact (step_return E {| g_value := v; g_tasks := l; g_world := w |} i a Hi).
  - apply rtc_once.
    exact (step_raise E {| g_value := v; g_tasks := l; g_world := w |} i e Hi).
  - cbn [run]. destruct (answer E w c) as [r w'] eqn:Hanswer.
    eapply rtc_l.
    + exact (step_call E {| g_value := v; g_tasks := l; g_world := w |} i X c k r w'
               Hi Hanswer).
    + cbn [g_value g_tasks g_world].
      assert (Hi' : <[i := Running (k r)]> l !! i = Some (Running (k r))).
      { apply list_lookup_insert_eq. by eapply lookup_lt_Some. }
      specialize (IH r v (<[i := Running (k r)]> l) w' i Hi').
      rewrite list_insert_insert_eq in IH. exact IH.
Qed.

Lemma waiting_task_steps (p : prog A) (v : Z) (l : list (task_state A)) (w : world)
    (i : nat) :
  l !! i = Some (Waiting p) ->
  (0 < v)%Z ->
  rtc (gather_step E)
    {| g_value := v; g_tasks := l; g_world := w |}
    {| g_value := v;
       g_tasks := <[i := Finished (run E p w).1]> l;
       g_world := (run E p w).2 |}.
Proof.
  intros Hi Hv. eapply rtc_l.
  - exact (step_acquire E {| g_value := v; g_tasks := l; g_world := w |} i p Hi Hv).
  - cbn [g_value g_tasks g_world].
    assert (Hi' : <[i := Running p]> l !! i = Some (Running p)).
    { apply list_lookup_insert_eq. by eapply lookup_lt_Some. }
    pose proof (running_task_steps p (v - 1) (<[i := Running p]> l) w i Hi') as Hsteps.
    rewrite list_insert_insert_eq in Hsteps.
    replace (v - 1 + 1)%Z with v in Hsteps by lia. exact Hsteps.
Qed.

Lemma sequential_schedule_from (tasks : list (prog A)) :
  forall (v : Z) (done : list (task_state A)) (w : world),
    (0 < v)%Z ->
    rtc (gather_step E)
      {| g_value := v; g_tasks := done ++ (Waiting <$> tasks); g_world := w |}
      {| g_value := v;
         g_tasks := done ++ (Finished <$> (run_all E tasks w).1);
         g_world := (run_all E tasks w).2 |}.
Proof.
  induction tasks as [| p tasks IH]; intros v done w Hv; [apply rtc_refl |].
  cbn [run_all]. destruct (run E p w) as [r w1] eqn:Hrun.
  destruct (run_all E tasks w1) as [rs w2] eqn:Hall.
  etrans.
  - apply (waiting_task_steps p v _ w (length done)); [| exact Hv].
    rewrite fmap_cons. apply list_lookup_middle. reflexivity.
  - rewrite Hrun. cbn [fst snd]. rewrite fmap_cons.
    rewrite insert_app_r_alt, Nat.sub_diag by lia. cbn [insert list_insert].
    specialize (IH v (done ++ [Finished r]) w1 Hv).
    rewrite Hall in IH. cbn [fst snd] in IH.
    rewrite <- !app_assoc in IH. exact IH.
Qed.

(** Running the tasks one after the other is a schedule of the batch. *)
Lemma sequential_schedule (n : Z) (tasks : list (prog A)) (w : world)
    (s0 : gather_state A) :
  (0 < n)%Z ->
  gather_with_concurrency n tasks w = Ok s0 ->
  rtc (gather_step E) s0
    {| g_value := n;
       g_tasks := Finished <$> (run_all E tasks w).1;
       g_world := (run_all E tasks w).2 |}.
Proof.
  intros Hn Hinit. unfold gather_with_concurrency in Hinit.
  destruct (Z.ltb_spec n 0); [lia |]. injection Hinit as <-.
  exact (sequential_schedule_from tasks n [] w Hn).
Qed.

End Sequential.

(** ** The archive across runs *)
















Lemma has_char_app (c : ascii) (s t : string) :
  has_char c (s +:+ t) = has_char c s || has_char c t.
Proof.
  induction s as [| d s IH]; [reflexivity |].
  change (String d s +:+ t) with (String d (s +:+ t)).
  rewrite !has_char_cons, IH. apply orb_assoc.
Qed.








(** *** Complete runs of the entry point *)

Lemma forallb_all_ok (rs : list (result unit)) :
  forallb is_ok rs = true -> rs = Ok <$> replicate (length rs) tt.
Proof.
  induction rs as [| r rs IH]; [reflexivity |]. simpl.
  intros H. apply andb_true_iff in H as [Hr Hrs].
  destruct r as [[] | e]; [| discriminate]. f_equal. by apply IH.
Qed.

Lemma answer_ListDir (E : env) (w : world) :
  answer E w ListDir =
  match oracle E (w_trace w) _ ListDir with
  | Ok _ => (Ok (w_archive w), logged ListDir w)
  | Err e => (Err e, logged ListDir w)
  end.
Proof. reflexivity. Qed.

Lemma sync_run_new_garmin_ids (container_repr : pyval -> string) (E : env) (fuel : nat)
    (client : Garmin) (w w_login w_listed : world) (listed : list string) :
  run E (login client) w = (Ok tt, w_login) ->
  is_ok (oracle E (w_trace w_login) _ ListDir) = true ->
  run E (get_activity_id_list container_repr fuel client 0) (logged ListDir w_login)
  = (Ok listed, w_listed) ->
  run E (new_garmin_ids container_repr fuel client) w
  = (Ok (to_generate_garmin_ids_of listed (downloaded_ids_of (w_archive w_login))),
     w_listed).
Proof.
  intros Hlogin Hdir Hlist. unfold new_garmin_ids.
  rewrite run_bind, Hlogin, run_bind, run_perform, answer_ListDir.
  destruct (oracle E (w_trace w_login) _ ListDir) as [x | e]; [| discriminate].
  cbv beta iota. rewrite run_bind, Hlist. reflexivity.
Qed.

(** A [sync_run] is a run of [download_new_activities]. *)
Lemma sync_run_is_a_run (container_repr : pyval -> string) (E : env) (fuel : nat)
    (client : Garmin) (w : world) (listed scheduled : list string) (w_end : world) :
  sync_run container_repr E fuel client w listed scheduled w_end ->
  exists r, download_new_activities container_repr E fuel client w r w_end.
Proof.
  intros (w_login & w_listed & s0 & s_end & results & r
          & Hlogin & Hdir & Hlist & -> & Hbatch & Hsteps & Hreturns & Hfinish).
  exists r. eapply batch_returns; eauto.
  by apply sync_run_new_garmin_ids.
Qed.

(** What [sync_sequentially] computes is a [sync_run]. *)
Lemma sync_sequentially_run (container_repr : pyval -> string) (E : env) (fuel : nat)
    (client : Garmin) (w : world) (listed scheduled : list string) (w_end : world) :
  sync_sequentially container_repr E fuel client w = Some (listed, scheduled, w_end) ->
  sync_run container_repr E fuel client w listed scheduled w_end.
Proof.
  unfold sync_sequentially.
  destruct (run E (login client) w) as [[[] | e] w_login] eqn:Hlogin; [| discriminate].
  destruct (is_ok (oracle E (w_trace w_login) _ ListDir)) eqn:Hdir; [| discriminate].
  destruct (run E (get_activity_id_list container_repr fuel client 0) _)
    as [[listed' | e] w_listed] eqn:Hlist; [| discriminate].
  cbv zeta.
  set (ids := to_generate_garmin_ids_of listed' (downloaded_ids_of (w_archive w_login))).
  destruct (run_all E (save_garmin_activity client <$> ids) w_listed)
    as [rs w_batch] eqn:Hall.
  destruct (forallb is_ok rs) eqn:Hok; [| discriminate].
  apply forallb_all_ok in Hok as Hrs.
  intros [= <- <- <-].
  exists w_login, w_listed,
    {| g_value := 10; g_tasks := Waiting <$> (save_garmin_activity client <$> ids);
       g_world := w_listed |},
    {| g_value := 10; g_tasks := Finished <$> rs; g_world := w_batch |},
    (replicate (length rs) tt),
    (run E rebuild_and_close w_batch).1.
  repeat split; auto.
  - pose proof (sequential_schedule E 10 (save_garmin_activity client <$> ids) w_listed
                  _ ltac:(lia) eq_refl) as Hseq.
    rewrite Hall in Hseq. exact Hseq.
  - unfold gather_returns. simpl. rewrite Hrs at 1. rewrite <- list_fmap_compose. reflexivity.
  - apply surjective_pairing.
Qed.

Lemma empty_batch_stays (E : env) (client : Garmin) (w : world) (s : gather_state unit) :
  rtc (gather_step E)
    {| g_value := 10; g_tasks := Waiting <$> (save_garmin_activity client <$> []);
       g_world := w |} s ->
  g_world s = w.
Proof.
  intros Hrtc. inversion Hrtc as [| s1 s2 s3 Hstep Hrest]; subst; [reflexivity |].
  apply gather_step_tasks_next in Hstep as (i & t & t' & Hi & _). discriminate.
Qed.







(** In the [fit] format the bundle is extracted under the names it holds, so
    the archive does not gain an entry whose stem is the identifier and the
    second run schedules 333 again although the first download succeeded. *)
Lemma sync_twice_downloads_again_in_fit_format :
  sync_run no_repr env_download_bundle 1000 recent_fit_client archive_111_222
    ["333"] ["333"] (world_after env_download_bundle recent_fit_client archive_111_222) /\
  w_archive (world_after env_download_bundle recent_fit_client archive_111_222)
  = ["111.gpx"; "222.gpx"; "333_ACTIVITY.fit"] /\
  sync_run no_repr env_download_bundle 1000 recent_fit_client
    (next_run (world_after env_download_bundle recent_fit_client archive_111_222))
    ["333"] ["333"]
    (world_after env_download_bundle recent_fit_client
       (next_run (world_after env_download_bundle recent_fit_client archive_111_222))).
Proof.
  split; [apply sync_sequentially_run; vm_compute; reflexivity |].
  split; [vm_compute; reflexivity |].
  apply sync_sequentially_run. vm_compute. reflexivity.
Qed.

(** * Further properties *)

(** ** [config.py] *)

Lemma safeget_app (dct v : pyval) (keys keys' : list string) :
  path_value dct keys v -> safeget dct (keys ++ keys') = safeget v keys'.
Proof.
  induction 1 as [dct | m key v0 keys r Hkey _ IH]; [reflexivity |].
  simpl. rewrite Hkey. exact IH.
Qed.

(** X1.  When every key of the path is present, [config] returns the value
    at the end of the path, and a longer path continues from that value. *)
Theorem config_follows_path (_config v : pyval) (keys : list string) :
  path_value _config keys v ->
  config _config keys = Ok v /\
  (forall keys', config _config (keys ++ keys') = config v keys').
Proof.
  intros Hpath. unfold config. split.
  - rewrite <- (app_nil_r keys). by rewrite (safeget_app _ v).
  - intros keys'. by apply safeget_app.
Qed.

Lemma config_follows_path_witness :
  config example_config ["sync"; "garmin"; "email"] = Ok (PyStr "runner@example.com") /\
  (forall keys',
     config example_config (["sync"; "garmin"; "email"] ++ keys')
     = config (PyStr "runner@example.com") keys').
Proof.
  apply (config_follows_path example_config (PyStr "runner@example.com")
           ["sync"; "garmin"; "email"]).
  unfold example_config.
  eapply path_step; [vm_compute; reflexivity |].
  eapply path_step; [vm_compute; reflexivity |].
  eapply path_step; [vm_compute; reflexivity |].
  apply path_here.
Defined.

(** X2.  A key that is missing from a mapping, at any depth, makes [config]
    return [None]; the keys after it are not looked at. *)
Theorem config_missing_key (_config : pyval) (keys : list string)
    (m : gmap string pyval) (key : string) (keys' : list string) :
  path_value _config keys (PyDict m) ->
  m !! key = None ->
  config _config (keys ++ key :: keys') = Ok PyNone.
Proof.
  intros Hpath Hkey. unfold config. rewrite (safeget_app _ _ _ _ Hpath).
  simpl. rewrite Hkey. reflexivity.
Qed.

Lemma config_missing_key_witness :
  config (load_config (Err (LibraryError "FileNotFoundError")))
    ([] ++ "sync" :: ["garmin"; "email"]) = Ok PyNone.
Proof.
  apply (config_missing_key _ [] ∅ "sync" ["garmin"; "email"]).
  - apply path_here.
  - reflexivity.
Defined.

(** X3.  When the path reaches a value that is not a mapping and a key is
    still to be looked up, [config] raises [TypeError]: the [except] of
    [safeget] catches [KeyError] only.  An empty configuration file, which
    loads as [None], does so for every key. *)
Theorem config_not_a_mapping (_config v : pyval) (keys : list string) (key : string)
    (keys' : list string) :
  path_value _config keys v ->
  is_dict v = false ->
  config _config (keys ++ key :: keys') = Err TypeError.
Proof.
  intros Hpath Hv. unfold config. rewrite (safeget_app _ _ _ _ Hpath).
  destruct v; try discriminate; reflexivity.
Qed.

Lemma config_not_a_mapping_witness :
  config (load_config (Ok PyNone)) ([] ++ "sync" :: ["garmin"; "email"]) = Err TypeError.
Proof.
  apply (config_not_a_mapping _ PyNone [] "sync" ["garmin"; "email"]).
  - apply path_here.
  - reflexivity.
Defined.

(** X4.  [config] raises nothing but [TypeError]. *)
Theorem config_raises_only_TypeError (_config : pyval) (keys : list string) (e : exn) :
  config _config keys = Err e -> e = TypeError.
Proof.
  unfold config. revert _config.
  induction keys as [| key keys IH]; intros dct; simpl; [discriminate |].
  destruct dct; simpl; try (by intros [= <-]).
  destruct (d !! key) as [v |]; [apply IH | discriminate].
Qed.

Lemma config_raises_only_TypeError_witness :
  config (PyStr "garmin") ["email"] = Err TypeError /\ TypeError = TypeError.
Proof.
  split; [reflexivity |].
  apply (config_raises_only_TypeError (PyStr "garmin") ["email"] TypeError).
  reflexivity.
Defined.

(** ** The type tables *)

(** X5.  Every activity type that can be chosen on the command line is a key
    of [TYPE_DICT], and the type it maps to is one of [MAPPING_TYPE]. *)
Theorem activity_types_choices_are_mapped :
  Forall (fun choice =>
            exists mapped, TYPE_DICT !! choice = Some mapped /\ mapped ∈ MAPPING_TYPE)
    activity_types_choices.
Proof.
  assert (Hcheck :
    forallb (fun choice =>
               match TYPE_DICT !! choice with
               | Some mapped => bool_decide (mapped ∈ MAPPING_TYPE)
               | None => false
               end) activity_types_choices = true) by (vm_compute; reflexivity).
  apply Forall_forall. intros choice Hin.
  rewrite forallb_forall in Hcheck.
  specialize (Hcheck choice (proj1 (list_elem_of_In _ _) Hin)).
  destruct (TYPE_DICT !! choice) as [mapped |]; [| discriminate].
  exists mapped. split; [reflexivity |]. by apply bool_decide_eq_true_1 in Hcheck.
Qed.

(** ** [Garmin.__init__] *)

Lemma upper_char_C (c : ascii) :
  upper_char c = "C"%char -> c = "C"%char \/ c = "c"%char.
Proof.
  destruct c as [[] [] [] [] [] [] [] []]; vm_compute; intros H;
    first [discriminate H | by left | by right].
Qed.

Lemma upper_char_N (c : ascii) :
  upper_char c = "N"%char -> c = "N"%char \/ c = "n"%char.
Proof.
  destruct c as [[] [] [] [] [] [] [] []]; vm_compute; intros H;
    first [discriminate H | by left | by right].
Qed.

Lemma str_upper_CN (d : string) :
  str_upper d = "CN" <-> d ∈ ["CN"; "Cn"; "cN"; "cn"].
Proof.
  split.
  - destruct d as [| c1 [| c2 [| c3 d]]]; simpl; try discriminate.
    intros [= H1 H2].
    destruct (upper_char_C c1 H1) as [-> | ->], (upper_char_N c2 H2) as [-> | ->];
      set_solver.
  - intros Hin. repeat (apply elem_of_cons in Hin as [-> | Hin]; [reflexivity |]).
    by apply elem_of_nil in Hin.
Qed.

(** X6.  The client talks to the [.cn] endpoints exactly when the
    authentication domain is one of the four spellings of [cn]; with any other
    domain, and with none, it talks to the [.com] endpoints. *)
Theorem Garmin_init_domain (email password : string) (auth_domain : option string)
    (is_only_running : bool) (file_type sync_type : string)
    (activity_types : activity_types_arg) :
  URL_DICT (Garmin_init email password auth_domain is_only_running file_type sync_type
              activity_types)
  = match auth_domain with
    | Some d =>
        if bool_decide (d ∈ ["CN"; "Cn"; "cN"; "cn"])
        then GARMIN_CN_URL_DICT
        else GARMIN_COM_URL_DICT
    | None => GARMIN_COM_URL_DICT
    end.
Proof.
  unfold Garmin_init. cbn [URL_DICT].
  destruct auth_domain as [d |]; [| reflexivity].
  destruct (String.eqb_spec (str_upper d) "CN") as [Hcn | Hcn].
  - apply str_upper_CN in Hcn as Hin.
    rewrite bool_decide_eq_true_2 by exact Hin.
    destruct d; [discriminate Hcn |]. reflexivity.
  - rewrite andb_false_r.
    rewrite bool_decide_eq_false_2; [reflexivity |].
    intros Hin. by apply str_upper_CN in Hin.
Qed.

(** ** [Garmin.login] and [Garmin.fetch_data] *)

Lemma login_exceptions (E : env) (self : Garmin) (w : world) (e : exn) :
  (run E (login self) w).1 = Err e ->
  e = GarminConnectConnectionError \/ e = GarminConnectAuthenticationError.
Proof.
  rewrite run_login.
  destruct (oracle E (w_trace w) _ _) as [r0 | e0]; [| intros [= <-]; by left].
  destruct (oracle E _ _ (CfPost _ _ _)) as [r1 | e1]; [| intros [= <-]; by left].
  destruct (re_search_ticket (text r1)) as [group1 |]; [| intros [= <-]; by right].
  cbv zeta. unfold exchange_outcome.
  destruct (oracle E _ _ (CfGet (remove_backslashes group1) [])) as [r2 | e2];
    [| intros [= <-]; by left].
  destruct (status_code r2 =? 429)%Z; [intros [= <-]; by left |].
  destruct (raise_for_status r2); [intros [= <-]; by left | discriminate].
Qed.

(** X7.  [login] raises nothing but [GarminConnectConnectionError] and
    [GarminConnectAuthenticationError]. *)
Theorem login_raises_only (E : env) (self : Garmin) (w : world) (e : exn) :
  (run E (login self) w).1 = Err e ->
  e = GarminConnectConnectionError \/ e = GarminConnectAuthenticationError.
Proof. exact (login_exceptions E self w e). Qed.

Lemma login_raises_only_witness :
  (run env_expired_session_bad_credentials (login example_client) (initial_world [])).1
  = Err GarminConnectAuthenticationError /\
  (GarminConnectAuthenticationError = GarminConnectConnectionError \/
   GarminConnectAuthenticationError = GarminConnectAuthenticationError).
Proof.
  split; [vm_compute; reflexivity |].
  apply (login_raises_only env_expired_session_bad_credentials example_client
           (initial_world [])).
  vm_compute. reflexivity.
Defined.

(** X8.  [login] sets [is_login] when it returns and leaves it as it was when
    it raises: a failed relogin does not mark the session as signed out. *)
Theorem login_flag (E : env) (self : Garmin) (w : world) :
  w_is_login (run E (login self) w).2
  = if is_ok (run E (login self) w).1 then true else w_is_login w.
Proof.
  rewrite run_login.
  destruct (oracle E (w_trace w) _ _) as [r0 | e0]; [| reflexivity].
  destruct (oracle E _ _ (CfPost _ _ _)) as [r1 | e1]; [| reflexivity].
  destruct (re_search_ticket (text r1)) as [group1 |]; [| reflexivity].
  cbv zeta. destruct (exchange_outcome _); reflexivity.
Qed.

(** X9.  [fetch_data] raises nothing but [GarminConnectConnectionError] and
    [GarminConnectAuthenticationError]; in a retry it raises nothing but
    [GarminConnectConnectionError].  In particular a response with status 429
    never surfaces as [GarminConnectTooManyRequestsError]. *)
Theorem fetch_data_raises_only (E : env) (self : Garmin) (url : string)
    (retrying : bool) (w : world) (e : exn) :
  (run E (fetch_data self url retrying) w).1 = Err e ->
  e = GarminConnectConnectionError \/
  (retrying = false /\ e = GarminConnectAuthenticationError).
Proof.
  destruct retrying.
  - rewrite run_fetch_data_retrying. simpl.
    destruct (attempt_outcome _); [discriminate | intros [= <-]; by left].
  - rewrite run_fetch_data.
    destruct (attempt_outcome _) as [v | e1]; [discriminate |].
    pose proof (login_exceptions E self (logged (ReqGet url) w)) as Hlogin.
    destruct (run E (login self) (logged (ReqGet url) w)) as [[[] | e2] w2]; simpl in *.
    + destruct (attempt_outcome _); [discriminate | intros [= <-]; by left].
    + intros [= <-]. destruct (Hlogin e2 eq_refl) as [-> | ->]; auto.
Qed.

Lemma fetch_data_raises_only_witness :
  (run env_expired_session_bad_credentials (fetch_data example_client example_url true)
     (initial_world [])).1 = Err GarminConnectConnectionError /\
  (GarminConnectConnectionError = GarminConnectConnectionError \/
   (true = false /\ GarminConnectConnectionError = GarminConnectAuthenticationError)).
Proof.
  split; [vm_compute; reflexivity |].
  apply (fetch_data_raises_only env_expired_session_bad_credentials example_client
           example_url true (initial_world [])).
  vm_compute. reflexivity.
Defined.

(** ** The service-ticket URL *)

Lemma string_app_assoc (s t u : string) : (s +:+ t) +:+ u = s +:+ (t +:+ u).
Proof.
  induction s as [| c s IH]; [reflexivity |].
  change ((String c s +:+ t) +:+ u) with (String c ((s +:+ t) +:+ u)).
  change (String c s +:+ (t +:+ u)) with (String c (s +:+ (t +:+ u))).
  by rewrite IH.
Qed.

Lemma prefix_drop (p s : string) :
  String.prefix p s = true -> s = p +:+ string_drop (String.length p) s.
Proof.
  revert s. induction p as [| a p IH]; intros s; [reflexivity |].
  destruct s as [| b s]; simpl; [discriminate |].
  destruct (ascii_dec a b) as [-> | _]; [| discriminate].
  intros Hp. change (String b p +:+ string_drop (String.length p) s)
    with (String b (p +:+ string_drop (String.length p) s)).
  f_equal. by apply IH.
Qed.

Lemma prefix_app (p s : string) : String.prefix p (p +:+ s) = true.
Proof.
  induction p as [| a p IH]; [by destruct s |].
  change (String a p +:+ s) with (String a (p +:+ s)). cbn [String.prefix].
  destruct (ascii_dec a a) as [_ | Hne]; [exact IH | congruence].
Qed.

Lemma span_not_quote_spec (s r rest : string) :
  span_not_quote s = (r, rest) ->
  s = r +:+ rest /\
  has_char dquote r = false /\
  (rest = EmptyString \/ exists rest', rest = String dquote rest').
Proof.
  revert r rest. induction s as [| c s IH]; intros r rest; simpl.
  - intros [= <- <-]. auto.
  - destruct (Ascii.eqb_spec c dquote) as [-> | Hc].
    + intros [= <- <-]. split; [reflexivity |]. split; [reflexivity |]. right. eauto.
    + destruct (span_not_quote s) as [r0 rest0]. intros [= <- <-].
      destruct (IH r0 rest0 eq_refl) as (Hs & Hr & Hrest).
      split; [| split; [| exact Hrest]].
      * change (String c r0 +:+ rest0) with (String c (r0 +:+ rest0)). by f_equal.
      * rewrite has_char_cons, Hr, orb_false_r.
        destruct (Ascii.eqb_spec dquote c); congruence.
Qed.

Lemma str_contains_cons (t s : string) (c : ascii) :
  str_contains t s = true -> str_contains t (String c s) = true.
Proof. intros H. cbn [str_contains]. rewrite H. apply orb_true_r. Qed.

Lemma str_contains_app (t p s : string) :
  str_contains t s = true -> str_contains t (p +:+ s) = true.
Proof.
  intros H. induction p as [| c p IH]; [exact H |].
  change (String c p +:+ s) with (String c (p +:+ s)). by apply str_contains_cons.
Qed.

Lemma ticket_inside_contains (r : string) :
  ticket_inside r = true -> str_contains "ticket=" r = true.
Proof.
  induction r as [| c r IH]; cbn [ticket_inside str_contains]; intros H;
    apply orb_true_iff in H as [H | H]; try discriminate.
  - apply andb_true_iff in H as [H _]. by rewrite H.
  - rewrite IH by exact H. apply orb_true_r.
Qed.

Lemma remove_backslashes_clean (s : string) :
  has_char backslash (remove_backslashes s) = false.
Proof.
  unfold remove_backslashes. induction s as [| c s IH]; [reflexivity |].
  cbn [string_filter]. destruct (Ascii.eqb_spec c backslash) as [-> | Hc]; cbn [negb].
  - exact IH.
  - rewrite has_char_cons, IH, orb_false_r.
    destruct (Ascii.eqb_spec backslash c); congruence.
Qed.

Lemma re_search_ticket_spec (page group1 : string) :
  re_search_ticket page = Some group1 ->
  exists before r after,
    page = before +:+ String dquote ("https:" +:+ r +:+ String dquote after) /\
    group1 = "https:" +:+ r /\
    has_char dquote r = false /\
    str_contains "ticket=" r = true.
Proof.
  revert group1. induction page as [| c page IH]; intros group1; [discriminate |].
  cbn [re_search_ticket].
  assert (Hlater : re_search_ticket page = Some group1 ->
            exists before r after,
              String c page
              = before +:+ String dquote ("https:" +:+ r +:+ String dquote after) /\
              group1 = "https:" +:+ r /\
              has_char dquote r = false /\
              str_contains "ticket=" r = true).
  { intros H. destruct (IH group1 H) as (before & r & after & -> & Hrest).
    exists (String c before), r, after. split; [reflexivity | exact Hrest]. }
  destruct (Ascii.eqb c dquote && String.prefix "https:" page) eqn:Hhead;
    [| exact Hlater].
  apply andb_true_iff in Hhead as [Hc Hprefix]. apply Ascii.eqb_eq in Hc as ->.
  destruct (span_not_quote (string_drop 6 page)) as [r rest] eqn:Hspan.
  destruct (span_not_quote_spec _ _ _ Hspan) as (Hdrop & Hclean & Hrest).
  destruct (negb (String.eqb rest EmptyString)
            && match r with
               | EmptyString => false
               | String _ r' => ticket_inside r'
               end) eqn:Hcond; [| exact Hlater].
  intros [= <-]. apply andb_true_iff in Hcond as [Hnonempty Hticket].
  destruct Hrest as [-> | [after ->]]; [discriminate |].
  exists EmptyString, r, after. split; [| split; [reflexivity | split; [exact Hclean |]]].
  - change (EmptyString +:+ String dquote ("https:" +:+ r +:+ String dquote after))
      with (String dquote ("https:" +:+ r +:+ String dquote after)).
    f_equal. rewrite <- Hdrop. exact (prefix_drop "https:" page Hprefix).
  - destruct r as [| x r']; [discriminate |].
    by apply str_contains_cons, ticket_inside_contains.
Qed.

(** X10.  What [login] takes for the ticket URL stands in the sign-in answer
    between two double quotes, starts with [https:], holds [ticket=] and no
    double quote; the URL it then requests holds no backslash. *)
Theorem ticket_url_shape (page group1 : string) :
  re_search_ticket page = Some group1 ->
  (exists before after,
     page = before +:+ String dquote (group1 +:+ String dquote after)) /\
  String.prefix "https:" group1 = true /\
  str_contains "ticket=" group1 = true /\
  has_char dquote group1 = false /\
  has_char backslash (remove_backslashes group1) = false.
Proof.
  intros Hsearch.
  destruct (re_search_ticket_spec page group1 Hsearch)
    as (before & r & after & -> & -> & Hclean & Hticket).
  split; [| split; [| split; [| split]]].
  - exists before, after. by rewrite string_app_assoc.
  - apply prefix_app.
  - by apply str_contains_app.
  - rewrite has_char_app, Hclean. reflexivity.
  - apply remove_backslashes_clean.
Qed.

Lemma ticket_url_shape_witness :
  (exists before after,
     ticket_page
     = before +:+ String dquote
         ("https:\/\/connect.garmin.com?ticket=ST-0123456-abcdef" +:+ String dquote after)) /\
  String.prefix "https:" "https:\/\/connect.garmin.com?ticket=ST-0123456-abcdef" = true /\
  str_contains "ticket=" "https:\/\/connect.garmin.com?ticket=ST-0123456-abcdef" = true /\
  has_char dquote "https:\/\/connect.garmin.com?ticket=ST-0123456-abcdef" = false /\
  has_char backslash
    (remove_backslashes "https:\/\/connect.garmin.com?ticket=ST-0123456-abcdef") = false.
Proof.
  apply (ticket_url_shape ticket_page).
  vm_compute. reflexivity.
Defined.

(** ** [Garmin.get_activities] *)

(** X11.  Without a session, [get_activities] signs in first; when that
    [login] raises, its exception is raised and no listing request is
    sent. *)
Theorem get_activities_without_session (E : env) (self : Garmin) (start limit : Z)
    (w : world) (e : exn) :
  w_is_login w = false ->
  (run E (login self) (logged GetIsLogin w)).1 = Err e ->
  (run E (get_activities self start limit) w).1 = Err e /\
  req_get_count (run E (get_activities self start limit) w).2 = req_get_count w.
Proof.
  intros Hflag Hlogin. unfold get_activities.
  rewrite run_bind, run_perform, answer_GetIsLogin, Hflag. cbv beta iota.
  rewrite run_bind. cbn [negb].
  pose proof (login_req_get_count E self (logged GetIsLogin w)) as Hcount.
  destruct (run E (login self) (logged GetIsLogin w)) as [[[] | e'] w'];
    simpl in Hlogin; [discriminate |].
  injection Hlogin as ->. split; [reflexivity | exact Hcount].
Qed.

Lemma get_activities_without_session_witness :
  (run env_expired_session_bad_credentials (get_activities example_client 0 100)
     (initial_world [])).1 = Err GarminConnectAuthenticationError /\
  req_get_count (run env_expired_session_bad_credentials
                   (get_activities example_client 0 100) (initial_world [])).2
  = req_get_count (initial_world []).
Proof.
  apply (get_activities_without_session env_expired_session_bad_credentials
           example_client 0 100 (initial_world [])).
  - reflexivity.
  - vm_compute. reflexivity.
Defined.

Lemma type_matches_list (types : list string) (record : gmap string pyval)
    (type_key : string) :
  type_key_of record = Some type_key ->
  type_matches (TypesList types) (PyDict record) = Ok (has_type_among types record).
Proof.
  unfold has_type_among. intros Hkey. rewrite Hkey.
  unfold type_key_of in Hkey. unfold type_matches. cbn [py_getitem].
  destruct (record !! "activityType") as [[| | | | | activity_type] |];
    try discriminate.
  cbn [result_bind py_getitem].
  destruct (activity_type !! "typeKey") as [[| | | t | |] |]; try discriminate.
  injection Hkey as ->. reflexivity.
Qed.

Lemma filter_raising_records (types : list string) (records : list (gmap string pyval)) :
  Forall (fun record => is_Some (type_key_of record)) records ->
  filter_raising (type_matches (TypesList types)) (PyDict <$> records)
  = Ok (PyDict <$> filter (fun record => has_type_among types record = true) records).
Proof.
  induction 1 as [| record records [type_key Hkey] _ IH]; [reflexivity |].
  rewrite fmap_cons. cbn [filter_raising].
  rewrite (type_matches_list _ _ _ Hkey), IH. cbn [result_bind].
  destruct (has_type_among types record) eqn:Hkeep.
  - rewrite filter_cons_True by exact Hkeep. reflexivity.
  - rewrite filter_cons_False by congruence. reflexivity.
Qed.

(** X12.  With a list of types as filter, a page whose records all carry a
    string type key comes back as the records whose type key is in the list,
    in the order of the page. *)
Theorem type_filter_keeps_listed_types (types : list string)
    (records : list (gmap string pyval)) :
  no_type_filter (TypesList types) = false ->
  Forall (fun record => is_Some (type_key_of record)) records ->
  select_activity_types (TypesList types) (PyList (PyDict <$> records))
  = Ok (PyList (PyDict <$> filter (fun record => has_type_among types record = true)
                             records)).
Proof.
  intros Hfilter Hrecords. unfold select_activity_types. rewrite Hfilter.
  cbn [py_iter result_bind]. by rewrite filter_raising_records.
Qed.

Lemma type_filter_keeps_listed_types_witness :
  select_activity_types (TypesList ["running"])
    (PyList (PyDict <$> [cycling_record 0; running_record; cycling_record 1]))
  = Ok (PyList (PyDict <$> filter (fun record => has_type_among ["running"] record = true)
                             [cycling_record 0; running_record; cycling_record 1])).
Proof.
  apply (type_filter_keeps_listed_types ["running"]
           [cycling_record 0; running_record; cycling_record 1]).
  - reflexivity.
  - repeat constructor; vm_compute; eauto.
Defined.

Lemma filter_raising_fails {A : Type} (cond : A -> result bool) (l : list A) (x : A) :
  x ∈ l -> is_ok (cond x) = false -> is_ok (filter_raising cond l) = false.
Proof.
  intros Hin Hx. induction l as [| y l IH]; [by apply elem_of_nil in Hin |].
  cbn [filter_raising]. apply elem_of_cons in Hin as [<- | Hin].
  - destruct (cond x); [discriminate | reflexivity].
  - destruct (cond y) as [b | e]; [| reflexivity]. cbn [result_bind].
    specialize (IH Hin).
    destruct (filter_raising cond l); [discriminate IH | reflexivity].
Qed.

(** X13.  With a type filter, one record without the key [activityType] makes
    the whole page fail, whatever the other records are. *)
Theorem type_filter_fails_on_untyped_record (types : activity_types_arg)
    (records : list (gmap string pyval)) (record : gmap string pyval) :
  no_type_filter types = false ->
  record ∈ records ->
  record !! "activityType" = None ->
  is_ok (select_activity_types types (PyList (PyDict <$> records))) = false.
Proof.
  intros Hfilter Hin Hmissing. unfold select_activity_types. rewrite Hfilter.
  cbn [py_iter result_bind].
  assert (Hfails : is_ok (filter_raising (type_matches types) (PyDict <$> records)) = false).
  { apply (filter_raising_fails _ _ (PyDict record)).
    - apply list_elem_of_fmap. eauto.
    - unfold type_matches. cbn [py_getitem]. rewrite Hmissing. reflexivity. }
  destruct (filter_raising _ _); [discriminate Hfails | reflexivity].
Qed.

Lemma type_filter_fails_on_untyped_record_witness :
  is_ok (select_activity_types (TypesList ["running"])
           (PyList (PyDict <$> [running_record; untyped_record]))) = false.
Proof.
  apply (type_filter_fails_on_untyped_record (TypesList ["running"])
           [running_record; untyped_record] untyped_record).
  - reflexivity.
  - apply list_elem_of_further, list_elem_of_here.
  - vm_compute. reflexivity.
Defined.

Lemma str_contains_prefix (t s : string) :
  String.prefix t s = true -> str_contains t s = true.
Proof. intros H. destruct s; cbn [str_contains]; by rewrite H. Qed.

Lemma str_contains_spec (t s : string) : str_contains t s = true <-> occurs_in t s.
Proof.
  unfold occurs_in. split.
  - induction s as [| c s IH]; cbn [str_contains]; intros H;
      apply orb_true_iff in H as [H | H]; try discriminate.
    + exists EmptyString, (string_drop (String.length t) EmptyString).
      by apply prefix_drop.
    + exists EmptyString, (string_drop (String.length t) (String c s)).
      by apply prefix_drop.
    + destruct (IH H) as (before & after & ->).
      by exists (String c before), after.
  - intros (before & after & ->).
    apply str_contains_app, str_contains_prefix, prefix_app.
Qed.

Lemma type_matches_str (s : string) (record : gmap string pyval) (type_key : string) :
  type_key_of record = Some type_key ->
  type_matches (TypesStr s) (PyDict record) = Ok (has_type_inside s record).
Proof.
  unfold has_type_inside. intros Hkey. rewrite Hkey.
  unfold type_key_of in Hkey. unfold type_matches. cbn [py_getitem].
  destruct (record !! "activityType") as [[| | | | | activity_type] |];
    try discriminate.
  cbn [result_bind py_getitem].
  destruct (activity_type !! "typeKey") as [[| | | t | |] |]; try discriminate.
  injection Hkey as ->. reflexivity.
Qed.

Lemma filter_raising_records_str (s : string) (records : list (gmap string pyval)) :
  Forall (fun record => is_Some (type_key_of record)) records ->
  filter_raising (type_matches (TypesStr s)) (PyDict <$> records)
  = Ok (PyDict <$> filter (fun record => has_type_inside s record = true) records).
Proof.
  induction 1 as [| record records [type_key Hkey] _ IH]; [reflexivity |].
  rewrite fmap_cons. cbn [filter_raising].
  rewrite (type_matches_str _ _ _ Hkey), IH. cbn [result_bind].
  destruct (has_type_inside s record) eqn:Hkeep.
  - rewrite filter_cons_True by exact Hkeep. reflexivity.
  - rewrite filter_cons_False by congruence. reflexivity.
Qed.

(** X14.  With a plain string that is not empty as filter, as with the
    fallback of the entry point, the filter is a substring test: a page whose
    records all carry a string type key comes back as the records whose type
    key occurs in the string, in the order of the page.  So the string
    [trail_running] keeps a record of type [running], which the list of the
    one type [trail_running] drops. *)
Theorem string_filter_is_substring_test (s : string)
    (records : list (gmap string pyval)) :
  no_type_filter (TypesStr s) = false ->
  Forall (fun record => is_Some (type_key_of record)) records ->
  select_activity_types (TypesStr s) (PyList (PyDict <$> records))
  = Ok (PyList (PyDict <$> filter (fun record => has_type_inside s record = true)
                             records)) /\
  (forall record type_key,
     type_key_of record = Some type_key ->
     (has_type_inside s record = true <-> occurs_in type_key s)).
Proof.
  intros Hfilter Hrecords. split.
  - unfold select_activity_types. rewrite Hfilter.
    cbn [py_iter result_bind]. by rewrite filter_raising_records_str.
  - intros record type_key Hkey. unfold has_type_inside. rewrite Hkey.
    apply str_contains_spec.
Qed.

Lemma string_filter_is_substring_test_witness :
  (occurs_in "running" "trail_running" /\
   has_type_among ["trail_running"] running_record = false) /\
  select_activity_types (TypesStr "trail_running")
    (PyList (PyDict <$> [cycling_record 0; running_record]))
  = Ok (PyList (PyDict <$> filter (fun record =>
                                     has_type_inside "trail_running" record = true)
                             [cycling_record 0; running_record])) /\
  (forall record type_key,
     type_key_of record = Some type_key ->
     (has_type_inside "trail_running" record = true <->
      occurs_in type_key "trail_running")).
Proof.
  split.
  - split; [by exists "trail_", EmptyString | vm_compute; reflexivity].
  - apply (string_filter_is_substring_test "trail_running"
             [cycling_record 0; running_record]).
    + reflexivity.
    + repeat constructor; vm_compute; eauto.
Defined.

(** ** [Garmin.download_activity] and [save_garmin_activity] *)

Lemma run_download_activity (E : env) (self : Garmin) (activity_id : string) (w : world) :
  run E (download_activity self activity_id) w =
  (match oracle E (w_trace w) _ (ReqGet (download_url self activity_id)) with
   | Err e => Err e
   | Ok resp =>
       match raise_for_status resp with
       | Some e => Err e
       | None => Ok (read resp)
       end
   end, logged (ReqGet (download_url self activity_id)) w).
Proof.
  unfold download_activity. rewrite run_bind, run_perform, answer_ReqGet.
  destruct (oracle E (w_trace w) _ _) as [resp | e]; [| reflexivity].
  cbv beta iota. destruct (raise_for_status resp); reflexivity.
Qed.

(** X15.  When the download of an activity fails, by an exception of the GET
    or by an error status, [save_garmin_activity] returns normally after that
    single request: no file is opened and nothing is extracted, in every
    format. *)
Theorem save_garmin_activity_failed_download (E : env) (client : Garmin)
    (activity_id : string) (w : world) :
  download_fails (oracle E (w_trace w) _ (ReqGet (download_url client activity_id))) ->
  run E (save_garmin_activity client activity_id) w
  = (Ok tt, logged (ReqGet (download_url client activity_id)) w).
Proof.
  intros Hfails. unfold save_garmin_activity.
  rewrite run_try_except, run_bind, run_download_activity.
  unfold download_fails in Hfails.
  destruct (oracle E (w_trace w) _ _) as [resp | e]; [| reflexivity].
  destruct (raise_for_status resp); [reflexivity | contradiction].
Qed.

Lemma save_garmin_activity_failed_download_witness :
  run env_download_refused (save_garmin_activity recent_client "333") archive_111_222
  = (Ok tt, logged (ReqGet (download_url recent_client "333")) archive_111_222).
Proof.
  apply (save_garmin_activity_failed_download env_download_refused recent_client "333"
           archive_111_222).
  vm_compute. discriminate.
Defined.

(** X16.  In a single-file format, once the file of an activity has been
    opened it is closed, whether the write succeeds or raises: the calls are
    the GET, the open, the write and the close, in this order, and the task
    returns normally. *)
Theorem save_garmin_activity_closes_file (E : env) (client : Garmin)
    (activity_id : string) (w : world) (resp : response) :
  let url := download_url client activity_id in
  let name := activity_id +:+ "." +:+ file_type client in
  String.eqb (file_type client) "fit" = false ->
  oracle E (w_trace w) _ (ReqGet url) = Ok resp ->
  raise_for_status resp = None ->
  is_ok (oracle E (Called (ReqGet url) :: w_trace w) _ (FileOpenWb name)) = true ->
  (run E (save_garmin_activity client activity_id) w).1 = Ok tt /\
  w_trace (run E (save_garmin_activity client activity_id) w).2
  = Called (FileClose name) :: Called (FileWrite name (read resp))
      :: Called (FileOpenWb name) :: Called (ReqGet url) :: w_trace w.
Proof.
  intros url name Hformat Hget Hstatus Hopen. subst url name.
  unfold save_garmin_activity.
  rewrite run_try_except, run_bind, run_download_activity, Hget, Hstatus, Hformat.
  cbv beta iota. rewrite run_bind, run_perform.
  set (name := activity_id +:+ "." +:+ file_type client) in *.
  set (w1 := logged (ReqGet (download_url client activity_id)) w) in *.
  change (answer E w1 (FileOpenWb name))
    with (match oracle E (w_trace w1) _ (FileOpenWb name) with
          | Ok _ => (Ok tt, with_archive (add_entry name (w_archive w1))
                              (logged (FileOpenWb name) w1))
          | Err e => (Err e, logged (FileOpenWb name) w1)
          end).
  change (w_trace w1) with (Called (ReqGet (download_url client activity_id)) :: w_trace w).
  destruct (oracle E _ _ (FileOpenWb name)) as [[] | e]; [| discriminate].
  cbv beta iota. rewrite run_finally, run_perform.
  set (w2 := with_archive (add_entry name (w_archive w1)) (logged (FileOpenWb name) w1)).
  change (answer E w2 (FileWrite name (read resp)))
    with (oracle E (w_trace w2) _ (FileWrite name (read resp)),
          logged (FileWrite name (read resp)) w2).
  cbv beta iota. rewrite run_perform.
  set (w3 := logged (FileWrite name (read resp)) w2).
  change (answer E w3 (FileClose name))
    with (oracle E (w_trace w3) _ (FileClose name), logged (FileClose name) w3).
  destruct (oracle E (w_trace w2) _ (FileWrite name (read resp))) as [[] | e1];
    destruct (oracle E (w_trace w3) _ (FileClose name)) as [[] | e2];
    split; reflexivity.
Qed.

Lemma save_garmin_activity_closes_file_witness :
  (run env_disk_full (save_garmin_activity recent_client "333") archive_111_222).1 = Ok tt /\
  w_trace (run env_disk_full (save_garmin_activity recent_client "333") archive_111_222).2
  = Called (FileClose "333.gpx") :: Called (FileWrite "333.gpx" "<gpx>track</gpx>")
      :: Called (FileOpenWb "333.gpx")
      :: Called (ReqGet (download_url recent_client "333")) :: w_trace archive_111_222.
Proof.
  apply (save_garmin_activity_closes_file env_disk_full recent_client "333"
           archive_111_222 (page_response "<gpx>track</gpx>")); reflexivity.
Defined.


(** X17.  In the [fit] format, whatever the outside answers,
    [save_garmin_activity] makes no call but the GET of the download and the
    extraction of the bundle: it opens no file of its own. *)
Theorem save_garmin_activity_fit_calls (client : Garmin) (activity_id : string) :
  String.eqb (file_type client) "fit" = true ->
  all_calls (fun ev => is_get_or_extract ev = true)
    (save_garmin_activity client activity_id).
Proof.
  intros Hformat. unfold save_garmin_activity, download_activity. rewrite Hformat.
  apply all_calls_try_except; [| intros; exact I].
  apply all_calls_bind.
  - apply all_calls_bind; [apply all_calls_perform; reflexivity |].
    intros resp. destruct (raise_for_status resp); exact I.
  - intros file_data. apply all_calls_perform. reflexivity.
Qed.

Lemma save_garmin_activity_fit_calls_witness :
  all_calls (fun ev => is_get_or_extract ev = true)
    (save_garmin_activity recent_fit_client "333").
Proof.
  apply (save_garmin_activity_fit_calls recent_fit_client "333"). reflexivity.
Defined.

(** ** [get_activity_id_list] *)



(** X19.  The listing of the [all] mode is all or nothing: when a page has
    been listed and the listing of the pages after it raises, the whole
    listing raises that exception and the identifiers of the pages already
    listed are not returned. *)
Theorem listing_is_all_or_nothing (container_repr : pyval -> string) (E : env)
    (client : Garmin) (fuel : nat) (start : Z) (w : world) (resp : response)
    (records : list (gmap string pyval)) (e : exn) (w2 : world) :
  sync_type client = "all" ->
  w_is_login w = true ->
  oracle E (w_trace (logged GetIsLogin w)) _ (ReqGet (activities_url client start 100))
  = Ok resp ->
  good_page resp (PyList (PyDict <$> records)) ->
  records <> [] ->
  keeps_every (activity_types client) records ->
  run E (get_activity_id_list container_repr fuel client (start + 100))
    (logged (ReqGet (activities_url client start 100)) (logged GetIsLogin w))
  = (Err e, w2) ->
  run E (get_activity_id_list container_repr (S fuel) client start) w = (Err e, w2).
Proof.
  intros Hall Hlogin Hget Hgood Hne Hkeeps Hrest.
  rewrite get_activity_id_list_unfold by exact Hall.
  rewrite run_bind.
  rewrite (run_get_activities_page E client start 100 w resp _ Hlogin Hget Hgood).
  rewrite (select_keeps_every _ records) by (auto || reflexivity).
  cbv beta iota. rewrite run_bind, run_lift. unfold py_len. cbv beta iota.
  rewrite length_fmap. destruct records as [| record records]; [congruence |].
  change (Z.of_nat (length (record :: records)) >? 0)%Z with true.
  cbv beta iota. rewrite run_bind, run_lift, activity_ids_records.
  cbv beta iota. rewrite run_bind, Hrest. reflexivity.
Qed.

Lemma listing_is_all_or_nothing_witness :
  run env_second_page_down (get_activity_id_list no_repr 5 example_client 0)
    (logged_in_world [])
  = (Err GarminConnectConnectionError,
     (run env_second_page_down (get_activity_id_list no_repr 4 example_client (0 + 100))
        (logged (ReqGet (activities_url example_client 0 100))
           (logged GetIsLogin (logged_in_world [])))).2).
Proof.
  apply (listing_is_all_or_nothing no_repr env_second_page_down example_client 4 0
           (logged_in_world []) (ok_response (PyList [PyDict running_record]))
           [running_record]).
  - reflexivity.
  - reflexivity.
  - reflexivity.
  - repeat split. discriminate.
  - discriminate.
  - right. intros record Hin. apply list_elem_of_singleton in Hin. subst record.
    reflexivity.
  - vm_compute. reflexivity.
Defined.

(** ** [gather_with_concurrency] *)

Lemma no_step_without_permit {A : Type} (E : env) (tasks : list (prog A)) (w : world)
    (s : gather_state A) :
  ~ gather_step E {| g_value := 0; g_tasks := Waiting <$> tasks; g_world := w |} s.
Proof.
  intros Hstep. inversion Hstep as [s0 i p Hi Hv | s0 i X c k r w' Hi | s0 i a Hi | s0 i e Hi];
    subst; cbn [g_tasks g_value] in *.
  - lia.
  - rewrite list_lookup_fmap in Hi. destruct (tasks !! i); discriminate.
  - rewrite list_lookup_fmap in Hi. destruct (tasks !! i); discriminate.
  - rewrite list_lookup_fmap in Hi. destruct (tasks !! i); discriminate.
Qed.

(** X20.  With a ceiling of zero the batch never moves: no task is admitted,
    no call is made, and [gather] neither returns nor raises. *)
Theorem semaphore_of_zero_blocks {A : Type} (E : env) (tasks : list (prog A)) (w : world)
    (s0 s : gather_state A) :
  tasks <> [] ->
  gather_with_concurrency 0 tasks w = Ok s0 ->
  rtc (gather_step E) s0 s ->
  s = s0 /\
  g_world s = w /\
  (forall results, ~ gather_returns s results) /\
  (forall e, ~ gather_raises s e).
Proof.
  intros Hne [= <-] Hsteps.
  assert (Hs : s = {| g_value := 0; g_tasks := Waiting <$> tasks; g_world := w |}).
  { inversion Hsteps as [| s1 s2 s3 Hstep _]; [reflexivity |].
    by apply no_step_without_permit in Hstep. }
  subst s. repeat split.
  - intros results Hreturns. unfold gather_returns in Hreturns. cbn [g_tasks] in Hreturns.
    destruct tasks as [| p tasks]; [congruence |].
    destruct results; discriminate.
  - intros e Hraises. unfold gather_raises in Hraises. cbn [g_tasks] in Hraises.
    apply list_elem_of_fmap in Hraises as (p & Hp & _). discriminate.
Qed.

Lemma semaphore_of_zero_blocks_witness :
  let s0 := {| g_value := 0; g_tasks := Waiting <$> three_downloads;
               g_world := logged_in_world [] |} in
  s0 = s0 /\
  g_world s0 = logged_in_world [] /\
  (forall results, ~ gather_returns s0 results) /\
  (forall e, ~ gather_raises s0 e).
Proof.
  apply (semaphore_of_zero_blocks env_download_ok three_downloads (logged_in_world [])).
  - discriminate.
  - reflexivity.
  - apply rtc_refl.
Defined.

(** X21.  When every task of a batch has finished, by returning or by
    raising, the semaphore is back at its initial value and the batch holds
    one outcome per task. *)
Theorem gather_gives_permits_back {A : Type} (E : env) (n : Z) (tasks : list (prog A))
    (w : world) (s0 s : gather_state A) :
  gather_with_concurrency n tasks w = Ok s0 ->
  rtc (gather_step E) s0 s ->
  Forall (fun t => is_finished t = true) (g_tasks s) ->
  g_value s = n /\ length (g_tasks s) = length tasks.
Proof.
  intros Hinit Hsteps Hdone. split.
  - pose proof (semaphore_invariant_init _ _ _ _ Hinit) as Hinv0.
    pose proof (semaphore_invariant_reachable E _ _ _ Hinv0 Hsteps) as [_ Hsum].
    unfold in_flight in Hsum. fold (count_running (g_tasks s)) in Hsum.
    rewrite count_running_0 in Hsum; [lia |].
    eapply Forall_impl; [exact Hdone |].
    intros [p | p | r]; simpl; congruence.
  - rewrite (tasks_length_reachable E _ _ Hsteps).
    unfold gather_with_concurrency in Hinit.
    destruct (n <? 0)%Z; [discriminate |].
    injection Hinit as <-. cbn [g_tasks]. apply length_fmap.
Qed.

Lemma gather_gives_permits_back_witness :
  let tasks := save_garmin_activity recent_client <$> ["333"; "444"] in
  let s := {| g_value := 2;
              g_tasks := Finished <$> (run_all env_download_refused tasks
                                         (logged_in_world [])).1;
              g_world := (run_all env_download_refused tasks (logged_in_world [])).2 |} in
  g_value s = 2%Z /\ length (g_tasks s) = length tasks.
Proof.
  apply (gather_gives_permits_back env_download_refused 2
           (save_garmin_activity recent_client <$> ["333"; "444"]) (logged_in_world [])
           {| g_value := 2;
              g_tasks := Waiting <$> (save_garmin_activity recent_client <$> ["333"; "444"]);
              g_world := logged_in_world [] |}).
  - reflexivity.
  - apply sequential_schedule; [lia | reflexivity].
  - vm_compute. repeat constructor.
Defined.

(** ** [download_new_activities] *)

Lemma login_archive (E : env) (self : Garmin) (w : world) :
  w_archive (run E (login self) w).2 = w_archive w.
Proof.
  rewrite run_login. cbv zeta.
  destruct (oracle E (w_trace w) _ _) as [r1 | e1]; [| reflexivity].
  destruct (oracle E _ _ (CfPost _ _ _)) as [r2 | e2]; [| reflexivity].
  destruct (re_search_ticket (text r2)) as [group1 |]; [| reflexivity].
  destruct (exchange_outcome _); reflexivity.
Qed.

(** X22.  When the sign-in at the start of a run raises, the run ends with
    that exception straight away: the archive folder is not read, no listing
    or download request is sent, and the archive is as it was. *)
Theorem sync_stops_when_login_raises (container_repr : pyval -> string) (E : env)
    (fuel : nat) (client : Garmin) (w w1 w' : world) (e : exn) (r : result unit) :
  run E (login client) w = (Err e, w1) ->
  download_new_activities container_repr E fuel client w r w' ->
  r = Err e /\ w' = w1 /\
  w_archive w' = w_archive w /\ req_get_count w' = req_get_count w.
Proof.
  intros Hlogin Hrun.
  assert (Hnew : run E (new_garmin_ids container_repr fuel client) w = (Err e, w1)).
  { unfold new_garmin_ids. rewrite run_bind, Hlogin. reflexivity. }
  assert (Hw1 : w_archive w1 = w_archive w /\ req_get_count w1 = req_get_count w).
  { pose proof (login_archive E client w) as Harchive.
    pose proof (login_req_get_count E client w) as Hcount.
    rewrite Hlogin in Harchive, Hcount. split; assumption. }
  inversion Hrun as [w0 e0 w2 H | w0 ids w2 e0 H | w0 ids w2 s0 s e0 H | w0 ids w2 s0 s results r0 w3 H];
    subst; rewrite Hnew in H; try discriminate.
  injection H as <- <-. destruct Hw1. repeat split; assumption.
Qed.

Lemma sync_stops_when_login_raises_witness :
  let w1 := (run env_expired_session_bad_credentials (login example_client)
               (initial_world ["111.gpx"])).2 in
  Err GarminConnectAuthenticationError = Err GarminConnectAuthenticationError :> result unit /\
  w1 = w1 /\
  w_archive w1 = w_archive (initial_world ["111.gpx"]) /\
  req_get_count w1 = req_get_count (initial_world ["111.gpx"]).
Proof.
  apply (sync_stops_when_login_raises no_repr env_expired_session_bad_credentials 5
           example_client (initial_world ["111.gpx"])).
  - vm_compute. reflexivity.
  - apply listing_raises. vm_compute. reflexivity.
Defined.




(** ** [Garmin.upload_activities]: the answers to an upload *)

Lemma run_upload_activities (container_repr : pyval -> string) (E : env) (self : Garmin)
    (files : list (string * string)) (w : world) :
  w_is_login w = true ->
  run E (upload_activities container_repr self files) w =
  match run E (upload_loop container_repr self files) (logged GetIsLogin w) with
  | (Ok _, w') => answer E w' ReqAclose
  | (Err e, w') => (Err e, w')
  end.
Proof.
  intros Hlogin. unfold upload_activities.
  rewrite run_bind, run_perform, answer_GetIsLogin, Hlogin. cbv beta iota.
  cbn [negb]. rewrite run_bind. cbn [run]. rewrite run_bind.
  destruct (run E (upload_loop container_repr self files) (logged GetIsLogin w))
    as [[[] | e] w']; [| reflexivity].
  rewrite run_perform. reflexivity.
Qed.

(** X24.  When the answer to an upload cannot be read, because it is not
    JSON or has no [detailedImportResult], [upload_activities] raises
    [Exception('failed to upload')] at once: the files after it are not
    posted and the session is not closed. *)
Theorem upload_unreadable_answer_is_fatal (container_repr : pyval -> string) (E : env)
    (self : Garmin) (file garmin_type : string) (files' : list (string * string))
    (w : world) (res : response) :
  w_is_login w = true ->
  oracle E (Called GetIsLogin :: w_trace w) _ (ReqPost (upload_url self) file) = Ok res ->
  upload_answer_unreadable res ->
  run E (upload_activities container_repr self ((file, garmin_type) :: files')) w
  = (Err (PlainException "failed to upload"),
     logged (ReqPost (upload_url self) file) (logged GetIsLogin w)).
Proof.
  intros Hlogin Hpost Hunreadable.
  rewrite run_upload_activities by exact Hlogin.
  cbn [upload_loop run]. rewrite answer_ReqPost.
  change (w_trace (logged GetIsLogin w)) with (Called GetIsLogin :: w_trace w).
  rewrite Hpost. rewrite run_bind, run_try_except, run_lift.
  unfold upload_answer_unreadable in Hunreadable.
  destruct (json res) as [body | e]; cbn [result_bind]; [| reflexivity].
  destruct (py_getitem body "detailedImportResult") as [resp | e] eqn:Hresp;
    [| reflexivity].
  exfalso. exact (Hunreadable body resp eq_refl Hresp).
Qed.

Lemma upload_unreadable_answer_is_fatal_witness :
  run env_upload_garbled
    (upload_activities no_repr example_client
       [("<gpx>a</gpx>", "running"); ("<gpx>b</gpx>", "hiking")])
    (logged_in_world [])
  = (Err (PlainException "failed to upload"),
     logged (ReqPost (upload_url example_client) "<gpx>a</gpx>")
       (logged GetIsLogin (logged_in_world []))).
Proof.
  apply (upload_unreadable_answer_is_fatal no_repr env_upload_garbled example_client
           "<gpx>a</gpx>" "running" [("<gpx>b</gpx>", "hiking")] (logged_in_world [])
           (page_response "<html>Bad Gateway</html>")).
  - reflexivity.
  - reflexivity.
  - intros body resp Hjson. discriminate Hjson.
Defined.

(** X25.  When the answer to an upload reports no success (its list of
    successes is empty), the type of the activity is not corrected: no PUT is
    sent for the item and the loop goes on with the files after it. *)
Theorem upload_without_success_skips_correction (container_repr : pyval -> string)
    (E : env) (self : Garmin) (file garmin_type : string)
    (files' : list (string * string)) (w : world) (res : response)
    (body resp successes : pyval) :
  oracle E (w_trace w) _ (ReqPost (upload_url self) file) = Ok res ->
  json res = Ok body ->
  py_getitem body "detailedImportResult" = Ok resp ->
  py_getitem resp "successes" = Ok successes ->
  py_truthy successes = false ->
  run E (upload_loop container_repr self ((file, garmin_type) :: files')) w
  = run E (upload_loop container_repr self files')
      (logged (ReqPost (upload_url self) file) w).
Proof.
  intros Hpost Hjson Hresp Hsuccesses Hempty.
  cbn [upload_loop run]. rewrite answer_ReqPost, Hpost.
  rewrite run_bind, run_try_except, run_lift, Hjson. cbn [result_bind].
  rewrite Hresp. cbv beta iota.
  rewrite run_bind, run_lift, Hsuccesses. cbv beta iota.
  rewrite run_bind, Hempty. reflexivity.
Qed.

Lemma upload_without_success_skips_correction_witness :
  run env_upload_duplicate
    (upload_loop no_repr example_client [("<gpx>a</gpx>", "running")]) (logged_in_world [])
  = run env_upload_duplicate (upload_loop no_repr example_client [])
      (logged (ReqPost (upload_url example_client) "<gpx>a</gpx>") (logged_in_world [])).
Proof.
  apply (upload_without_success_skips_correction no_repr env_upload_duplicate
           example_client "<gpx>a</gpx>" "running" [] (logged_in_world [])
           (ok_response duplicate_answer) duplicate_answer
           (PyDict {[ "successes" := PyList [];
                      "failures" := PyList [PyDict {[ "internalId" := PyInt 42 ]}] ]})
           (PyList []));
    vm_compute; reflexivity.
Defined.

Lemma upload_loop_all_refused (container_repr : pyval -> string) (E : env) (self : Garmin)
    (files : list (string * string)) :
  (forall trace file, is_ok (oracle E trace _ (ReqPost (upload_url self) file)) = false) ->
  forall w,
    run E (upload_loop container_repr self files) w
    = (Ok tt,
       {| w_is_login := w_is_login w; w_archive := w_archive w;
          w_trace := reverse ((fun item => Called (ReqPost (upload_url self) item.1))
                                <$> files) ++ w_trace w |}).
Proof.
  intros Hrefused. induction files as [| [file garmin_type] files IH]; intros w.
  - destruct w. reflexivity.
  - cbn [upload_loop run]. rewrite answer_ReqPost.
    specialize (Hrefused (w_trace w) file).
    destruct (oracle E (w_trace w) _ (ReqPost (upload_url self) file)) as [res | e];
      [discriminate |].
    rewrite IH. f_equal. f_equal. cbn [logged w_trace w_is_login w_archive].
    rewrite fmap_cons, reverse_cons, <- app_assoc. reflexivity.
Qed.

(** X26.  When every upload request raises, [upload_activities] still
    returns normally: each file is posted once, in the order given, no type
    is corrected, and the session is closed at the end. *)
Theorem upload_all_refused (container_repr : pyval -> string) (E : env) (self : Garmin)
    (files : list (string * string)) (w : world) :
  w_is_login w = true ->
  (forall trace file, is_ok (oracle E trace _ (ReqPost (upload_url self) file)) = false) ->
  (forall trace, oracle E trace _ ReqAclose = Ok tt) ->
  (run E (upload_activities container_repr self files) w).1 = Ok tt /\
  w_trace (run E (upload_activities container_repr self files) w).2
  = Called ReqAclose
      :: reverse ((fun item => Called (ReqPost (upload_url self) item.1)) <$> files)
      ++ Called GetIsLogin :: w_trace w.
Proof.
  intros Hlogin Hrefused Hclose.
  rewrite run_upload_activities by exact Hlogin.
  rewrite (upload_loop_all_refused container_repr E self files Hrefused).
  cbv beta iota. unfold answer. rewrite Hclose. split; reflexivity.
Qed.

Lemma upload_all_refused_witness :
  let files := [("<gpx>a</gpx>", "running"); ("<gpx>b</gpx>", "hiking")] in
  (run env_upload_unreachable (upload_activities no_repr example_client files)
     (logged_in_world [])).1 = Ok tt /\
  w_trace (run env_upload_unreachable (upload_activities no_repr example_client files)
             (logged_in_world [])).2
  = Called ReqAclose
      :: reverse ((fun item => Called (ReqPost (upload_url example_client) item.1))
                    <$> files)
      ++ Called GetIsLogin :: w_trace (logged_in_world []).
Proof.
  apply (upload_all_refused no_repr env_upload_unreachable example_client
           [("<gpx>a</gpx>", "running"); ("<gpx>b</gpx>", "hiking")] (logged_in_world []));
    reflexivity.
Defined.
